(** * chargerecorder: the charging-session service of [routes.py]

    A shallow embedding of [models.py] (the [ChargingSession] table) and of
    the request handlers of [routes.py], followed by the properties of the
    specification that concern them.

    Conventions of the embedding:
    - Python [int] is [Z]; [Optional[T]] is [option T]; [str] is [string].
    - A naive [datetime] is the record of its seven fields.  Python compares
      two naive datetimes field by field, and SQLite orders the stored text
      [YYYY-MM-DD HH:MM:SS.ffffff] the same way.
    - The table [charging_sessions] is the list of its rows in rowid order.
    - A handler is a function from the table to an outcome and a table:
      [raise HTTPException] is the outcome [Raised], a Python exception
      nothing catches is the outcome [Unhandled], and every write of the
      source is followed at once by [db.commit()], so a write is applied to
      the table where the source commits it.
    - [datetime.now()] and the cookie of the request are inputs of a
      handler; [UNLOCK_PHRASE] is read once from the environment and is a
      parameter of the whole development. *)

From Stdlib Require Import ZArith List Bool String Ascii Lia.
From Stdlib Require Import Permutation Sorted DecimalString.
Import ListNotations.

Local Open Scope Z_scope.

(** ** Text helpers: [str(int)], [%0Nd], [str.join] *)

(** [str(n)] for a Python int. *)
Definition str_int (n : Z) : string :=
  NilZero.string_of_int (Z.to_int n).

Fixpoint zeros (n : nat) : string :=
  match n with
  | O => EmptyString
  | S k => String "0"%char (zeros k)
  end.

(** [%0wd] applied to a non-negative field. *)
Definition zero_pad (w : nat) (n : Z) : string :=
  let s := str_int n in
  (zeros (w - String.length s) ++ s)%string.

Fixpoint join (sep : string) (l : list string) : string :=
  match l with
  | [] => EmptyString
  | [x] => x
  | x :: rest => (x ++ sep ++ join sep rest)%string
  end.

(** ** [datetime] *)

Record datetime : Type := mk_datetime {
  year : Z;
  month : Z;
  day : Z;
  hour : Z;
  minute : Z;
  second : Z;
  microsecond : Z
}.

(** [datetime.isoformat()] of a naive datetime, default separator and
    [timespec='auto']: the fraction is written only when it is not zero. *)
Definition isoformat (d : datetime) : string :=
  (zero_pad 4 (year d) ++ "-" ++ zero_pad 2 (month d) ++ "-" ++ zero_pad 2 (day d)
   ++ "T"
   ++ zero_pad 2 (hour d) ++ ":" ++ zero_pad 2 (minute d) ++ ":" ++ zero_pad 2 (second d)
   ++ (if Z.eqb (microsecond d) 0%Z then EmptyString
       else "." ++ zero_pad 6 (microsecond d)))%string.

Definition dt_fields (d : datetime) : list Z :=
  [year d; month d; day d; hour d; minute d; second d; microsecond d].

(** Lexicographic [<=] on the field lists. *)
Fixpoint lex_leb (a b : list Z) : bool :=
  match a, b with
  | [], _ => true
  | _ :: _, [] => false
  | x :: a', y :: b' =>
      if x <? y then true
      else if x =? y then lex_leb a' b'
      else false
  end.

(** [d1 <= d2] on datetimes. *)
Definition dt_leb (d1 d2 : datetime) : bool :=
  lex_leb (dt_fields d1) (dt_fields d2).

(** ** [models.ChargingSession] *)

Record ChargingSession : Type := mk_session {
  id : Z;
  start_percentage : Z;
  start_time : datetime;
  end_percentage : option Z;
  end_time : option datetime
}.

(** The table, rows in rowid order. *)
Definition DB : Type := list ChargingSession.

(** The rowid SQLite gives to a row inserted without one: 1 in an empty
    table, and one more than the largest rowid otherwise. *)
Definition max_id (db : DB) : Z :=
  fold_right (fun s m => Z.max (id s) m) 0 db.

Definition next_id (db : DB) : Z :=
  match db with
  | [] => 1
  | _ => max_id db + 1
  end.

(** ** Queries *)

Section OrderBy.
Context {A : Type}.
Variable le : A -> A -> bool.

Fixpoint insert_sorted (x : A) (l : list A) : list A :=
  match l with
  | [] => [x]
  | y :: l' => if le x y then x :: l else y :: insert_sorted x l'
  end.

(** [ORDER BY]: rows that compare equal keep an order the database is
    free to choose; this model keeps the rowid order among them. *)
Definition order_by (l : list A) : list A :=
  fold_right insert_sorted [] l.
End OrderBy.

(** [.order_by(ChargingSession.start_time.asc())] *)
Definition start_time_asc (a b : ChargingSession) : bool :=
  dt_leb (start_time a) (start_time b).

(** [.order_by(ChargingSession.start_time.desc())] *)
Definition start_time_desc (a b : ChargingSession) : bool :=
  dt_leb (start_time b) (start_time a).

(** [ChargingSession.end_percentage.is_(None)] *)
Definition end_percentage_is_None (s : ChargingSession) : bool :=
  match end_percentage s with
  | None => true
  | Some _ => false
  end.

(** [.first()] *)
Definition first {A : Type} (l : list A) : option A :=
  match l with
  | [] => None
  | x :: _ => Some x
  end.

(** The query of [get_status] and of the [end] branch of [create_session]:
    [db.query(ChargingSession).filter(end_percentage IS NULL)
       .order_by(start_time DESC).first()]. *)
Definition open_session (db : DB) : option ChargingSession :=
  first (order_by start_time_desc (filter end_percentage_is_None db)).

(** ** Values sent back to the client *)

(** A JSON value; a Python [dict] keeps the order its keys were written in. *)
#[warnings="-register-all"]
Inductive json : Type :=
| JNone
| JBool (b : bool)
| JInt (n : Z)
| JStr (s : string)
| JList (items : list json)
| JDict (fields : list (string * json)).

(** [fastapi.HTTPException(status_code, detail)] *)
Record HTTPException : Type := mk_exn {
  status_code : Z;
  detail : string
}.

Definition HTTP_400_BAD_REQUEST : Z := 400.
Definition HTTP_401_UNAUTHORIZED : Z := 401.
Definition HTTP_404_NOT_FOUND : Z := 404.


(** [fastapi.Response(content, media_type, headers)] *)
Record Response : Type := mk_response {
  content : string;
  media_type : string;
  headers : list (string * string)
}.

(** ** Handlers: the table threaded through, [raise] as an outcome *)

(** How a handler ends: it returns, it raises an [HTTPException], or it
    dies with another Python exception, which FastAPI answers with 500. *)
Inductive outcome (A : Type) : Type :=
| Returned (a : A)
| Raised (e : HTTPException)
| Unhandled (exc : string).
Arguments Returned {A} a.
Arguments Raised {A} e.
Arguments Unhandled {A} exc.

Definition handler (A : Type) : Type := DB -> outcome A * DB.

Definition ret {A : Type} (a : A) : handler A :=
  fun db => (Returned a, db).

Definition raise {A : Type} (code : Z) (msg : string) : handler A :=
  fun db => (Raised (mk_exn code msg), db).

Definition bind {A B : Type} (m : handler A) (k : A -> handler B) : handler B :=
  fun db =>
    match m db with
    | (Returned a, db') => k a db'
    | (Raised e, db') => (Raised e, db')
    | (Unhandled exc, db') => (Unhandled exc, db')
    end.

Notation "x <- m ;; k" := (bind m (fun x => k))
  (at level 61, m at next level, right associativity).
Notation "m ;; k" := (bind m (fun _ => k))
  (at level 61, right associativity).

(** [db.query(ChargingSession)...]: a read of the table. *)
Definition query {A : Type} (q : DB -> A) : handler A :=
  fun db => (Returned (q db), db).

(** The integers Python's [sqlite3] can bind: signed, 64 bits.  Binding any
    other [int] raises [OverflowError]. *)
Definition fits_int64 (n : Z) : bool :=
  (- 2 ^ 63 <=? n) && (n <=? 2 ^ 63 - 1).

(** [db.query(ChargingSession).filter(ChargingSession.id == session_id)
       .first()].  The keys SQLite stores are signed 64-bit integers, so a
    [session_id] equal to a stored key is bound and its row found.  One
    that equals no stored key gives [None] when it can be bound, and
    otherwise the driver raises [OverflowError], which nothing catches. *)
Definition query_by_id (session_id : Z) : handler (option ChargingSession) :=
  fun db =>
    match first (filter (fun r => id r =? session_id) db) with
    | Some s => (Returned (Some s), db)
    | None =>
        if fits_int64 session_id then (Returned None, db)
        else (Unhandled "OverflowError", db)
    end.

(** [db.add(session); db.commit(); db.refresh(session)]: the row is stored
    under a fresh rowid and read back. *)
Definition add_commit_refresh (sp : Z) (st : datetime) : handler ChargingSession :=
  fun db =>
    let session := mk_session (next_id db) sp st None None in
    (Returned session, db ++ [session]).

(** [s.end_percentage = p; s.end_time = t; db.commit()]: the two columns
    are updated in the row whose primary key is that of [s]. *)
Definition set_end (p : Z) (t : datetime) (r : ChargingSession) : ChargingSession :=
  mk_session (id r) (start_percentage r) (start_time r) (Some p) (Some t).

Definition commit_end (s : ChargingSession) (p : Z) (t : datetime) : handler ChargingSession :=
  fun db =>
    (Returned (set_end p t s),
     map (fun r => if id r =? id s then set_end p t r else r) db).

(** [db.delete(session); db.commit()] *)
Definition delete_commit (s : ChargingSession) : handler unit :=
  fun db => (Returned tt, filter (fun r => negb (id r =? id s)) db).

(** [db.query(ChargingSession).delete(); db.commit()] *)
Definition delete_all_commit : handler unit :=
  fun _ => (Returned tt, []).

(** ** Python truth values used by the handlers *)

(** [bool(s)] for a [str]. *)
Definition str_truthy (s : string) : bool :=
  match s with
  | EmptyString => false
  | String _ _ => true
  end.

(** [bool(o)] for an [Optional[str]]. *)
Definition opt_str_truthy (o : option string) : bool :=
  match o with
  | None => false
  | Some s => str_truthy s
  end.

(** [bool(o)] for an [Optional[int]]: [None] and [0] are false. *)
Definition opt_int_truthy (o : option Z) : bool :=
  match o with
  | None => false
  | Some n => negb (n =? 0)
  end.

(** [bool(o)] for an [Optional[datetime]]: a datetime is always true. *)
Definition opt_datetime_truthy (o : option datetime) : bool :=
  match o with
  | None => false
  | Some _ => true
  end.

(** ** [csv.writer], default dialect *)

Definition quotechar : ascii := ascii_of_nat 34.
Definition CR : ascii := ascii_of_nat 13.
Definition LF : ascii := ascii_of_nat 10.
Definition lineterminator : string := String CR (String LF EmptyString).

(** A cell handed to [writerow]: an int is written as [str(n)]. *)
Inductive cell : Type :=
| CInt (n : Z)
| CStr (s : string).

Definition cell_text (c : cell) : string :=
  match c with
  | CInt n => str_int n
  | CStr s => s
  end.

Fixpoint needs_quotes (s : string) : bool :=
  match s with
  | EmptyString => false
  | String c s' =>
      Ascii.eqb c ","%char || Ascii.eqb c quotechar
      || Ascii.eqb c CR || Ascii.eqb c LF || needs_quotes s'
  end.

Fixpoint double_quotes (s : string) : string :=
  match s with
  | EmptyString => EmptyString
  | String c s' =>
      if Ascii.eqb c quotechar then String c (String c (double_quotes s'))
      else String c (double_quotes s')
  end.

(** [QUOTE_MINIMAL] *)
Definition csv_field (c : cell) : string :=
  let s := cell_text c in
  if needs_quotes s
  then (String quotechar (double_quotes s) ++ String quotechar EmptyString)%string
  else s.

(** [writer.writerow(row)] on a row of at least two cells: the text appended
    to the output. *)
Definition writerow (row : list cell) : string :=
  (join "," (map csv_field row) ++ lineterminator)%string.

(** ** [routes.py] *)

Local Open Scope string_scope.


(** [class UnlockRequest(BaseModel)] *)
Record UnlockRequest : Type := mk_unlock_request {
  phrase : string
}.

(** [class SessionRequest(BaseModel)] *)
Record SessionRequest : Type := mk_session_request {
  percentage : Z;
  type : string
}.

Section Routes.

(** [UNLOCK_PHRASE = os.getenv("UNLOCK_PHRASE", "")] *)
Variable UNLOCK_PHRASE : string.

Definition verify_session (session_cookie : option string) : bool :=
  if negb (str_truthy UNLOCK_PHRASE) then true
  else if negb (opt_str_truthy session_cookie) then false
  else match session_cookie with
       | Some c => String.eqb c UNLOCK_PHRASE
       | None => false
       end.

Definition require_auth (session_cookie : option string) : handler unit :=
  if negb (verify_session session_cookie)
  then raise HTTP_401_UNAUTHORIZED "Unauthorized"
  else ret tt.


(** [GET /api/status] *)
Definition get_status (session_cookie : option string) : handler json :=
  require_auth session_cookie ;;
  o <- query open_session ;;
  match o with
  | Some s =>
      ret (JDict [("status", JStr "charging");
                  ("start_percentage", JInt (start_percentage s));
                  ("start_time", JStr (isoformat (start_time s)))])
  | None => ret (JDict [("status", JStr "idle")])
  end.

(** One element of the list returned by [get_sessions]. *)
Definition session_item (s : ChargingSession) : json :=
  JDict [("id", JInt (id s));
         ("start_percentage", JInt (start_percentage s));
         ("start_time", JStr (isoformat (start_time s)));
         ("end_percentage",
          match end_percentage s with Some p => JInt p | None => JNone end);
         ("end_time",
          if opt_datetime_truthy (end_time s)
          then match end_time s with
               | Some t => JStr (isoformat t)
               | None => JNone
               end
          else JNone)].

(** [GET /api/sessions] *)
Definition get_sessions (session_cookie : option string) : handler json :=
  require_auth session_cookie ;;
  sessions <- query (order_by start_time_desc) ;;
  ret (JDict [("sessions", JList (map session_item sessions))]).

(** [POST /api/sessions] *)
Definition create_session (request : SessionRequest) (now : datetime)
    (session_cookie : option string) : handler json :=
  require_auth session_cookie ;;
  if ((percentage request <? 0) || (percentage request >? 100))%Z
  then raise HTTP_400_BAD_REQUEST "Percentage must be between 0 and 100"
  else
    if String.eqb (type request) "start" then
      session <- add_commit_refresh (percentage request) now ;;
      ret (JDict
             [("message",
               JStr ("Recorded " ++ str_int (percentage request)
                     ++ "% as start charge"));
              ("session",
               JDict [("id", JInt (id session));
                      ("start_percentage", JInt (start_percentage session));
                      ("start_time", JStr (isoformat (start_time session)))])])
    else if String.eqb (type request) "end" then
      o <- query open_session ;;
      match o with
      | None => raise HTTP_400_BAD_REQUEST "No active charging session found"
      | Some s =>
          closed <- commit_end s (percentage request) now ;;
          ret (JDict
                 [("message",
                   JStr ("Recorded " ++ str_int (percentage request)
                         ++ "% as end charge"));
                  ("session",
                   JDict [("id", JInt (id closed));
                          ("start_percentage", JInt (start_percentage closed));
                          ("start_time", JStr (isoformat (start_time closed)));
                          ("end_percentage",
                           match end_percentage closed with
                           | Some p => JInt p
                           | None => JNone
                           end);
                          ("end_time",
                           match end_time closed with
                           | Some t => JStr (isoformat t)
                           | None => JNone
                           end)])])
      end
    else raise HTTP_400_BAD_REQUEST "Type must be 'start' or 'end'".

(** The row [export_csv] writes for one session. *)
Definition csv_row (s : ChargingSession) : list cell :=
  [CInt (start_percentage s);
   CStr (isoformat (start_time s));
   (if opt_int_truthy (end_percentage s)
    then match end_percentage s with
         | Some p => CInt p
         | None => CStr EmptyString
         end
    else CStr EmptyString);
   (if opt_datetime_truthy (end_time s)
    then match end_time s with
         | Some t => CStr (isoformat t)
         | None => CStr EmptyString
         end
    else CStr EmptyString)].

Definition csv_header : list cell :=
  [CStr "start_percentage"; CStr "start_datetime";
   CStr "end_percentage"; CStr "end_datetime"].

(** The text in [output] after the header and the loop over [sessions]. *)
Definition csv_content (sessions : list ChargingSession) : string :=
  fold_left (fun output s => (output ++ writerow (csv_row s))%string)
            sessions (writerow csv_header).

(** [GET /api/sessions/csv] *)
Definition export_csv (session_cookie : option string) : handler Response :=
  require_auth session_cookie ;;
  sessions <- query (order_by start_time_asc) ;;
  ret (mk_response (csv_content sessions) "text/csv"
         [("Content-Disposition",
           "attachment; filename=charging_sessions.csv")]).

(** [DELETE /api/sessions/{session_id}] *)
Definition delete_session (session_id : Z) (session_cookie : option string)
    : handler json :=
  require_auth session_cookie ;;
  o <- query_by_id session_id ;;
  match o with
  | None => raise HTTP_404_NOT_FOUND "Session not found"
  | Some s =>
      delete_commit s ;;
      ret (JDict [("message", JStr "Session deleted")])
  end.

(** [DELETE /api/sessions] *)
Definition delete_all_sessions (session_cookie : option string) : handler json :=
  require_auth session_cookie ;;
  delete_all_commit ;;
  ret (JDict [("message", JStr "All sessions deleted")]).

(** [GET /health] *)
Definition health_check : handler json :=
  ret (JDict [("status", JStr "ok")]).

End Routes.

Local Close Scope string_scope.

(** ** The API as a transition system on the table *)

Inductive endpoint : Type :=
| PostUnlock (request : UnlockRequest)
| GetStatus
| GetSessions
| PostSessions (request : SessionRequest)
| GetSessionsCsv
| DeleteSession (session_id : Z)
| DeleteAllSessions
| GetHealth.

(** One request: the endpoint, the cookie sent with it, and the value
    [datetime.now()] takes while it is served. *)
Record call : Type := mk_call {
  target : endpoint;
  cookie : option string;
  clock : datetime
}.

(** The table after [c] has been served. *)
Definition serve (UNLOCK_PHRASE : string) (c : call) (db : DB) : DB :=
  match target c with
  | PostUnlock _ => db
  | GetStatus => snd (get_status UNLOCK_PHRASE (cookie c) db)
  | GetSessions => snd (get_sessions UNLOCK_PHRASE (cookie c) db)
  | PostSessions request =>
      snd (create_session UNLOCK_PHRASE request (clock c) (cookie c) db)
  | GetSessionsCsv => snd (export_csv UNLOCK_PHRASE (cookie c) db)
  | DeleteSession session_id =>
      snd (delete_session UNLOCK_PHRASE session_id (cookie c) db)
  | DeleteAllSessions => snd (delete_all_sessions UNLOCK_PHRASE (cookie c) db)
  | GetHealth => snd (health_check db)
  end.

Definition run (UNLOCK_PHRASE : string) (calls : list call) (db : DB) : DB :=
  fold_left (fun d c => serve UNLOCK_PHRASE c d) calls db.

(** The tables the service can hold: those a sequence of requests produces
    from the empty table [init_db] creates. *)
Definition reachable (UNLOCK_PHRASE : string) (db : DB) : Prop :=
  exists calls, run UNLOCK_PHRASE calls [] = db.

(** The number of open sessions, and the two readings of "open". *)
Definition is_open (s : ChargingSession) : bool :=
  match end_percentage s, end_time s with
  | None, None => true
  | _, _ => false
  end.

Definition open_count (db : DB) : nat :=
  List.length (filter is_open db).





Local Open Scope string_scope.

(** The requests that reach [db.add]: a [start] with a percentage in range,
    past the gate. *)
Definition accepted_start (P : string) (c : call) : bool :=
  match target c with
  | PostSessions request =>
      verify_session P (cookie c)
      && negb ((percentage request <? 0) || (percentage request >? 100))%Z
      && (type request =? "start")
  | _ => false
  end.

Definition start_percentage_of (c : call) : Z :=
  match target c with
  | PostSessions request => percentage request
  | _ => 0%Z
  end.

(** A sequence of requests in which a [start] is accepted only when no
    session is open. *)
Fixpoint starts_only_when_idle (P : string) (calls : list call) (db : DB) : Prop :=
  match calls with
  | [] => True
  | c :: rest =>
      (accepted_start P c = true -> open_count db = 0%nat)
      /\ starts_only_when_idle P rest (serve P c db)
  end.

(** The lines of a text, one after the other. *)
Definition lines (l : list string) : string :=
  fold_right append "" l.

(** Two instants used in the examples. *)
Definition t_0 : datetime := mk_datetime 2024 1 1 10 0 0 0.
Definition t_1 : datetime := mk_datetime 2024 1 1 11 0 0 0.

(** The exception a handler ended with, if it raised. *)
Definition raised {A : Type} (o : outcome A) : option HTTPException :=
  match o with
  | Returned _ => None
  | Raised e => Some e
  | Unhandled _ => None
  end.

(** The exception with which [c] is refused; [unlock] and [health_check]
    contain no [raise]. *)
Definition failure (UNLOCK_PHRASE : string) (c : call) (db : DB)
    : option HTTPException :=
  match target c with
  | PostUnlock _ => None
  | GetStatus => raised (fst (get_status UNLOCK_PHRASE (cookie c) db))
  | GetSessions => raised (fst (get_sessions UNLOCK_PHRASE (cookie c) db))
  | PostSessions request =>
      raised (fst (create_session UNLOCK_PHRASE request (clock c) (cookie c) db))
  | GetSessionsCsv => raised (fst (export_csv UNLOCK_PHRASE (cookie c) db))
  | DeleteSession session_id =>
      raised (fst (delete_session UNLOCK_PHRASE session_id (cookie c) db))
  | DeleteAllSessions =>
      raised (fst (delete_all_sessions UNLOCK_PHRASE (cookie c) db))
  | GetHealth => raised (fst (health_check db))
  end.

(** The number of commas in a text. *)
Fixpoint commas (s : string) : nat :=
  match s with
  | EmptyString => O
  | String c s' => if Ascii.eqb c ","%char then S (commas s') else commas s'
  end.

(** ** [main.py] *)

(** [s.split(sep)] for a separator of one character. *)
Fixpoint split_on (sep : ascii) (s : string) : list string :=
  match s with
  | EmptyString => [EmptyString]
  | String c s' =>
      if Ascii.eqb c sep then EmptyString :: split_on sep s'
      else match split_on sep s' with
           | [] => [String c EmptyString]
           | w :: ws => String c w :: ws
           end
  end.

(** [allowed_origins =
       os.getenv("ALLOWED_ORIGINS", "http://localhost:8080").split(",")];
    the argument is the variable of the environment, [None] when unset. *)
Definition allowed_origins (ALLOWED_ORIGINS : option string) : list string :=
  split_on ","%char
    (match ALLOWED_ORIGINS with
     | Some v => v
     | None => "http://localhost:8080"
     end).

Local Close Scope string_scope.

(** * Properties *)

(** ** The order on datetimes *)

Lemma lex_leb_total (a b : list Z) :
  lex_leb a b = true \/ lex_leb b a = true.
Proof.
  revert b; induction a as [|x a IH]; intros [|y b]; simpl; auto.
  destruct (Z.ltb_spec x y), (Z.ltb_spec y x); auto; try lia.
  replace y with x by lia.
  rewrite Z.eqb_refl. apply IH.
Qed.

Lemma lex_leb_trans (a b c : list Z) :
  lex_leb a b = true -> lex_leb b c = true -> lex_leb a c = true.
Proof.
  revert b c; induction a as [|x a IH]; intros [|y b] [|z c]; simpl;
    try discriminate; auto.
  destruct (Z.ltb_spec x y), (Z.ltb_spec y z), (Z.ltb_spec x z);
    auto; try lia;
    destruct (Z.eqb_spec x y), (Z.eqb_spec y z), (Z.eqb_spec x z);
    try discriminate; try lia; eauto.
Qed.

Lemma dt_leb_total (d1 d2 : datetime) :
  dt_leb d1 d2 = true \/ dt_leb d2 d1 = true.
Proof. apply lex_leb_total. Qed.

Lemma dt_leb_trans (d1 d2 d3 : datetime) :
  dt_leb d1 d2 = true -> dt_leb d2 d3 = true -> dt_leb d1 d3 = true.
Proof. apply lex_leb_trans. Qed.

(** ** [ORDER BY] returns the same rows, in order *)

Section OrderByFacts.
Context {A : Type}.
Variable le : A -> A -> bool.
Hypothesis le_total : forall a b, le a b = true \/ le b a = true.
Hypothesis le_trans : forall a b c, le a b = true -> le b c = true -> le a c = true.

Let R (a b : A) : Prop := le a b = true.

Lemma insert_sorted_perm (x : A) (l : list A) :
  Permutation (x :: l) (insert_sorted le x l).
Proof.
  induction l as [|y l IH]; simpl; auto.
  destruct (le x y); auto.
  rewrite perm_swap. now constructor.
Qed.

Lemma order_by_perm (l : list A) : Permutation l (order_by le l).
Proof.
  induction l as [|x l IH]; simpl; auto.
  rewrite <- insert_sorted_perm. now constructor.
Qed.

Lemma insert_sorted_sorted (x : A) (l : list A) :
  StronglySorted R l -> StronglySorted R (insert_sorted le x l).
Proof.
  induction 1 as [|y l Hs IH Hy]; simpl.
  - repeat constructor.
  - destruct (le x y) eqn:E.
    + constructor; [now constructor|].
      constructor; [exact E|].
      eapply Forall_impl; [|exact Hy].
      intros z Hz. exact (le_trans _ _ _ E Hz).
    + constructor; [exact IH|].
      assert (Hyx : R y x)
        by (destruct (le_total x y) as [H|H]; [congruence|exact H]).
      eapply Permutation_Forall; [apply insert_sorted_perm|].
      now constructor.
Qed.

Lemma order_by_sorted (l : list A) : StronglySorted R (order_by le l).
Proof.
  induction l as [|x l IH]; simpl.
  - constructor.
  - now apply insert_sorted_sorted.
Qed.

Lemma order_by_In (l : list A) (x : A) : In x (order_by le l) <-> In x l.
Proof.
  split; apply Permutation_in;
    [apply Permutation_sym|]; apply order_by_perm.
Qed.

Lemma order_by_nil (l : list A) : order_by le l = [] -> l = [].
Proof.
  intros H. apply Permutation_nil.
  rewrite <- H. apply Permutation_sym, order_by_perm.
Qed.

(** The first row of an ordered result is below every row of the input. *)
Lemma first_order_by (l : list A) (x : A) :
  first (order_by le l) = Some x ->
  In x l /\ forall y, In y l -> le x y = true.
Proof.
  intros H.
  pose proof (order_by_sorted l) as Hs.
  pose proof (order_by_In l) as Hin.
  destruct (order_by le l) as [|z rest]; [discriminate|].
  injection H as ->.
  split; [apply Hin; now left|].
  intros y Hy. apply Hin in Hy. destruct Hy as [<-|Hy].
  - destruct (le_total x x); assumption.
  - inversion Hs as [|? ? _ Hall]; subst.
    rewrite Forall_forall in Hall. now apply Hall.
Qed.
End OrderByFacts.

(** ** The passphrase gate *)

Local Open Scope string_scope.

Lemma str_truthy_true (s : string) : str_truthy s = true <-> s <> "".
Proof. destruct s; simpl; split; congruence. Qed.

Lemma verify_session_no_phrase (token : option string) :
  verify_session "" token = true.
Proof. reflexivity. Qed.

Lemma verify_session_denied (P : string) (token : option string) :
  P <> "" -> token <> Some P -> verify_session P token = false.
Proof.
  intros HP Ht. unfold verify_session.
  apply str_truthy_true in HP. rewrite HP. simpl.
  destruct token as [c|]; simpl; [|reflexivity].
  destruct (str_truthy c); simpl; [|reflexivity].
  apply String.eqb_neq. congruence.
Qed.

Lemma require_auth_ok (P : string) (token : option string) (db : DB) :
  verify_session P token = true -> require_auth P token db = (Returned tt, db).
Proof. intros H. unfold require_auth. now rewrite H. Qed.

Lemma require_auth_denied (P : string) (token : option string) (db : DB) :
  verify_session P token = false ->
  require_auth P token db
  = (Raised (mk_exn HTTP_401_UNAUTHORIZED "Unauthorized"), db).
Proof. intros H. unfold require_auth. now rewrite H. Qed.

(** C6. [verify_session] (the spec's [authorize]) accepts a token, present
    or absent, exactly when no passphrase is configured or the token is the
    configured passphrase; with an empty passphrase it accepts every
    request. *)
Theorem verify_session_iff (P : string) (token : option string) :
  (verify_session P token = true <-> P = "" \/ token = Some P)
  /\ (forall t : option string, verify_session "" t = true).
Proof.
  split; [|intros t; apply verify_session_no_phrase].
  split.
  - intros H.
    destruct (string_dec P "") as [HP|HP]; [now left|right].
    destruct token as [c|].
    + destruct (string_dec c P) as [->|Hc]; [reflexivity|].
      rewrite verify_session_denied in H; congruence.
    + rewrite verify_session_denied in H; congruence.
  - intros [->| ->]; [apply verify_session_no_phrase|].
    unfold verify_session, opt_str_truthy.
    destruct (str_truthy P); cbn [negb]; [|reflexivity].
    apply String.eqb_refl.
Qed.

(** C7. With a passphrase configured and a token that is not the
    passphrase (or no token at all), each of status, list, record, CSV
    export, delete-one and delete-all raises 401 Unauthorized and leaves the
    table as it was; the health check answers without looking at any
    token. *)
Theorem unauthorized_blocks (P : string) (token : option string) (db : DB)
    (request : SessionRequest) (now : datetime) (session_id : Z) :
  P <> "" -> token <> Some P ->
  let denied {A : Type} : outcome A * DB :=
    (Raised (mk_exn 401 "Unauthorized"), db) in
  get_status P token db = denied
  /\ get_sessions P token db = denied
  /\ create_session P request now token db = denied
  /\ export_csv P token db = denied
  /\ delete_session P session_id token db = denied
  /\ delete_all_sessions P token db = denied
  /\ health_check db = (Returned (JDict [("status", JStr "ok")]), db).
Proof.
  intros HP Ht denied.
  pose proof (require_auth_denied P token db (verify_session_denied P token HP Ht)) as E.
  unfold get_status, get_sessions, create_session, export_csv,
    delete_session, delete_all_sessions, bind.
  rewrite E. repeat split.
Qed.

Lemma unauthorized_blocks_witness :
  let db := [mk_session 1 50 (mk_datetime 2024 1 1 10 0 0 0) None None] in
  create_session "secret" (mk_session_request 60 "start")
    (mk_datetime 2024 1 1 11 0 0 0) (Some "guess") db
  = (Raised (mk_exn 401 "Unauthorized"), db).
Proof.
  intros db.
  refine (proj1 (proj2 (proj2
    (unauthorized_blocks "secret" (Some "guess") db (mk_session_request 60 "start")
       (mk_datetime 2024 1 1 11 0 0 0) 1 _ _)))); discriminate.
Defined.



(** ** Recording a percentage *)

Lemma percentage_in_range (p : Z) :
  ((p <? 0) || (p >? 100))%Z = false <-> (0 <= p <= 100)%Z.
Proof.
  rewrite Z.gtb_ltb, orb_false_iff, !Z.ltb_ge. lia.
Qed.

Lemma percentage_out_of_range (p : Z) :
  ((p <? 0) || (p >? 100))%Z = true <-> (p < 0 \/ 100 < p)%Z.
Proof.
  rewrite Z.gtb_ltb, orb_true_iff, !Z.ltb_lt. lia.
Qed.

(** C3. A percentage below 0 or above 100 never changes the table,
    whatever the type of the request; once past the gate the request is
    refused with 400 and the detail [Percentage must be between 0 and 100],
    for [start], [end] and any other type alike. *)
Theorem bad_percentage_rejected (P : string) (request : SessionRequest)
    (now : datetime) (token : option string) (db : DB) :
  (percentage request < 0 \/ 100 < percentage request)%Z ->
  snd (create_session P request now token db) = db
  /\ (verify_session P token = true ->
      create_session P request now token db
      = (Raised (mk_exn 400 "Percentage must be between 0 and 100"), db)).
Proof.
  intros Hp. apply percentage_out_of_range in Hp.
  unfold create_session, bind.
  destruct (verify_session P token) eqn:V.
  - rewrite (require_auth_ok _ _ _ V), Hp. split; [reflexivity|].
    intros _. reflexivity.
  - rewrite (require_auth_denied _ _ _ V). split; [reflexivity|discriminate].
Qed.

Lemma bad_percentage_rejected_witness :
  create_session "" (mk_session_request 101 "start")
    (mk_datetime 2024 1 1 10 0 0 0) None []
  = (Raised (mk_exn 400 "Percentage must be between 0 and 100"), [])
  /\ create_session "" (mk_session_request (-1) "end")
       (mk_datetime 2024 1 1 10 0 0 0) None []
     = (Raised (mk_exn 400 "Percentage must be between 0 and 100"), []).
Proof.
  split.
  - refine (proj2 (bad_percentage_rejected "" (mk_session_request 101 "start")
                     (mk_datetime 2024 1 1 10 0 0 0) None [] _) _);
      [right; reflexivity|reflexivity].
  - refine (proj2 (bad_percentage_rejected "" (mk_session_request (-1) "end")
                     (mk_datetime 2024 1 1 10 0 0 0) None [] _) _);
      [left; reflexivity|reflexivity].
Defined.

(** The open-session query finds nothing exactly when no row has a null
    [end_percentage]. *)
Lemma open_session_None (db : DB) :
  open_session db = None <-> forall s, In s db -> end_percentage s <> None.
Proof.
  unfold open_session. split.
  - intros H s Hs Hn.
    assert (E : order_by start_time_desc (filter end_percentage_is_None db) = [])
      by (destruct (order_by _ _); [reflexivity|discriminate]).
    apply order_by_nil in E.
    assert (Hin : In s (filter end_percentage_is_None db)).
    { apply filter_In. split; [exact Hs|].
      unfold end_percentage_is_None. now rewrite Hn. }
    rewrite E in Hin. exact Hin.
  - intros H.
    destruct (order_by _ _) as [|o rest] eqn:E; [reflexivity|exfalso].
    assert (Hin : In o (filter end_percentage_is_None db))
      by (apply (order_by_In start_time_desc); rewrite E; now left).
    apply filter_In in Hin. destruct Hin as [Hin Ho].
    apply (H o Hin). unfold end_percentage_is_None in Ho.
    destruct (end_percentage o); [discriminate|reflexivity].
Qed.

(** What it finds is a stored row with a null [end_percentage] whose
    [start_time] is not before that of any other such row. *)
Lemma open_session_Some (db : DB) (o : ChargingSession) :
  open_session db = Some o ->
  In o db /\ end_percentage o = None
  /\ forall s, In s db -> end_percentage s = None ->
       dt_leb (start_time s) (start_time o) = true.
Proof.
  intros H. unfold open_session in H.
  apply first_order_by in H.
  - destruct H as [Hin Hmax].
    apply filter_In in Hin. destruct Hin as [Hin Ho].
    unfold end_percentage_is_None in Ho.
    repeat split; [exact Hin|destruct (end_percentage o); congruence|].
    intros s Hs Hn. apply (Hmax s).
    apply filter_In. split; [exact Hs|].
    unfold end_percentage_is_None. now rewrite Hn.
  - intros a b. apply dt_leb_total.
  - intros a b c Hab Hbc. unfold start_time_desc in *.
    eapply dt_leb_trans; eassumption.
Qed.

(** C2. For a percentage in range and a table in which no row has a null
    [end_percentage], an [end] request that passes the gate is refused with
    400 and the detail [No active charging session found], and the table is
    returned as it was. *)
Theorem end_without_open_session (P : string) (p : Z) (now : datetime)
    (token : option string) (db : DB) :
  (0 <= p <= 100)%Z ->
  verify_session P token = true ->
  (forall s, In s db -> end_percentage s <> None) ->
  create_session P (mk_session_request p "end") now token db
  = (Raised (mk_exn 400 "No active charging session found"), db).
Proof.
  intros Hp V Hclosed.
  apply percentage_in_range in Hp. apply open_session_None in Hclosed.
  unfold create_session, bind, query.
  rewrite (require_auth_ok _ _ _ V). cbn [percentage type].
  rewrite Hp.
  change ("end" =? "start") with false. change ("end" =? "end") with true.
  cbv beta iota. rewrite Hclosed. reflexivity.
Qed.

Lemma end_without_open_session_witness :
  let db := [mk_session 1 50 (mk_datetime 2024 1 1 10 0 0 0)
               (Some 80%Z) (Some (mk_datetime 2024 1 1 12 0 0 0))] in
  create_session "" (mk_session_request 0 "end") (mk_datetime 2024 1 2 9 0 0 0) None db
  = (Raised (mk_exn 400 "No active charging session found"), db).
Proof.
  intros db.
  apply (end_without_open_session "" 0 (mk_datetime 2024 1 2 9 0 0 0) None db).
  - lia.
  - reflexivity.
  - intros s [<-|[]]. discriminate.
Defined.

(** The update of [commit_end] leaves rows with another primary key alone. *)
Lemma update_other_rows (k : Z) (f : ChargingSession -> ChargingSession) (l : DB) :
  ~ In k (map id l) ->
  map (fun r => if (id r =? k)%Z then f r else r) l = l.
Proof.
  induction l as [|r l IH]; simpl; intros H; [reflexivity|].
  destruct (Z.eqb_spec (id r) k) as [E|E]; [tauto|].
  f_equal. apply IH. tauto.
Qed.

(** Under the primary-key constraint it rewrites one row, in place. *)
Lemma commit_end_in_place (l1 l2 : DB) (o : ChargingSession) (p : Z) (t : datetime) :
  NoDup (map id (l1 ++ o :: l2)%list) ->
  snd (commit_end o p t (l1 ++ o :: l2)%list) = (l1 ++ set_end p t o :: l2)%list.
Proof.
  intros H. rewrite map_app in H. simpl in H.
  apply NoDup_remove_2 in H.
  unfold commit_end. simpl. rewrite map_app. simpl.
  rewrite Z.eqb_refl.
  rewrite !update_other_rows; [reflexivity| |];
    intros Hin; apply H, in_or_app; tauto.
Qed.

(** C5. The open-session query of [get_status] and of the [end] branch
    returns nothing exactly when no row has a null [end_percentage];
    otherwise it returns a stored row with a null [end_percentage] whose
    [start_time] is the latest among such rows, [get_status] reports that
    row, and an [end] request with percentage [p] served at time [now]
    rewrites that row, and no other, to carry [end_percentage = p] and
    [end_time = now]. *)
Theorem open_session_is_latest_and_gets_closed (P : string) (p : Z)
    (now : datetime) (token : option string) (db : DB) :
  NoDup (map id db) ->
  verify_session P token = true ->
  (0 <= p <= 100)%Z ->
  (open_session db = None <-> forall s, In s db -> end_percentage s <> None)
  /\ ((exists s, In s db /\ end_percentage s = None) ->
      exists o l1 l2,
        open_session db = Some o
        /\ end_percentage o = None
        /\ (forall s, In s db -> end_percentage s = None ->
              dt_leb (start_time s) (start_time o) = true)
        /\ db = (l1 ++ o :: l2)%list
        /\ get_status P token db
           = (Returned (JDict [("status", JStr "charging");
                               ("start_percentage", JInt (start_percentage o));
                               ("start_time", JStr (isoformat (start_time o)))]),
              db)
        /\ create_session P (mk_session_request p "end") now token db
           = (Returned
                (JDict
                   [("message", JStr ("Recorded " ++ str_int p ++ "% as end charge"));
                    ("session",
                     JDict [("id", JInt (id o));
                            ("start_percentage", JInt (start_percentage o));
                            ("start_time", JStr (isoformat (start_time o)));
                            ("end_percentage", JInt p);
                            ("end_time", JStr (isoformat now))])]),
              (l1 ++ mk_session (id o) (start_percentage o) (start_time o)
                                (Some p) (Some now) :: l2)%list)).
Proof.
  intros Hkey V Hp. split; [apply open_session_None|].
  intros [s0 [Hs0 Hn0]].
  destruct (open_session db) as [o|] eqn:E.
  2:{ exfalso. exact (proj1 (open_session_None db) E s0 Hs0 Hn0). }
  destruct (open_session_Some db o E) as [Hin [Ho Hmax]].
  destruct (in_split _ _ Hin) as [l1 [l2 Hdb]].
  exists o, l1, l2.
  repeat split; try assumption.
  - unfold get_status, bind, query.
    rewrite (require_auth_ok _ _ _ V), E. reflexivity.
  - apply percentage_in_range in Hp.
    unfold create_session, bind, query.
    rewrite (require_auth_ok _ _ _ V). cbn [percentage type].
    rewrite Hp.
    change ("end" =? "start") with false. change ("end" =? "end") with true.
    cbv beta iota. rewrite E.
    rewrite Hdb in Hkey.
    pose proof (commit_end_in_place l1 l2 o p now Hkey) as Hc.
    rewrite <- Hdb in Hc.
    unfold commit_end in Hc |- *. simpl in Hc.
    unfold ret. rewrite Hc. reflexivity.
Qed.

Lemma open_session_is_latest_and_gets_closed_witness :
  let t1 := mk_datetime 2024 1 1 10 0 0 0 in
  let t2 := mk_datetime 2024 1 1 12 30 0 0 in
  let t3 := mk_datetime 2024 1 2 9 0 0 0 in
  let db := [mk_session 1 50 t2 None None; mk_session 2 40 t1 None None] in
  exists o l1 l2,
    open_session db = Some o
    /\ end_percentage o = None
    /\ (forall s, In s db -> end_percentage s = None ->
          dt_leb (start_time s) (start_time o) = true)
    /\ db = (l1 ++ o :: l2)%list
    /\ get_status "" None db
       = (Returned (JDict [("status", JStr "charging");
                           ("start_percentage", JInt (start_percentage o));
                           ("start_time", JStr (isoformat (start_time o)))]),
          db)
    /\ create_session "" (mk_session_request 80 "end") t3 None db
       = (Returned
            (JDict
               [("message", JStr ("Recorded " ++ str_int 80 ++ "% as end charge"));
                ("session",
                 JDict [("id", JInt (id o));
                        ("start_percentage", JInt (start_percentage o));
                        ("start_time", JStr (isoformat (start_time o)));
                        ("end_percentage", JInt 80);
                        ("end_time", JStr (isoformat t3))])]),
          (l1 ++ mk_session (id o) (start_percentage o) (start_time o)
                            (Some 80%Z) (Some t3) :: l2)%list).
Proof.
  intros t1 t2 t3 db.
  refine (proj2 (open_session_is_latest_and_gets_closed "" 80 t3 None db _ _ _) _).
  - repeat constructor; simpl; intuition discriminate.
  - reflexivity.
  - lia.
  - exists (mk_session 1 50 t2 None None). split; [now left|reflexivity].
Defined.

(** ** Listing *)

(** C9. A [GET /api/sessions] that passes the gate returns, under the key
    [sessions], one item per stored row: the rows are those of the table
    (a permutation of it), in descending order of [start_time], and each
    item carries [id], [start_percentage], the ISO text of [start_time],
    and [end_percentage] and [end_time] as their values when set and as
    null when not.  The table is not changed. *)
Theorem get_sessions_all_descending (P : string) (token : option string) (db : DB) :
  verify_session P token = true ->
  exists sessions : list ChargingSession,
    get_sessions P token db
    = (Returned (JDict [("sessions", JList (map session_item sessions))]), db)
    /\ Permutation db sessions
    /\ StronglySorted
         (fun a b => dt_leb (start_time b) (start_time a) = true) sessions
    /\ forall s, In s sessions ->
         session_item s
         = JDict [("id", JInt (id s));
                  ("start_percentage", JInt (start_percentage s));
                  ("start_time", JStr (isoformat (start_time s)));
                  ("end_percentage",
                   match end_percentage s with
                   | Some p => JInt p
                   | None => JNone
                   end);
                  ("end_time",
                   match end_time s with
                   | Some t => JStr (isoformat t)
                   | None => JNone
                   end)].
Proof.
  intros V. exists (order_by start_time_desc db).
  repeat split.
  - unfold get_sessions, bind, query.
    now rewrite (require_auth_ok _ _ _ V).
  - apply order_by_perm.
  - apply (order_by_sorted start_time_desc).
    + intros a b. apply dt_leb_total.
    + intros a b c Hab Hbc. unfold start_time_desc in *.
      eapply dt_leb_trans; eassumption.
  - intros s _. unfold session_item.
    destruct (end_time s); reflexivity.
Qed.

Lemma get_sessions_all_descending_witness :
  let t1 := mk_datetime 2024 1 1 10 0 0 0 in
  let t2 := mk_datetime 2024 1 1 12 30 0 0 in
  let t3 := mk_datetime 2024 1 2 9 0 0 0 in
  let db := [mk_session 1 50 t1 (Some 0%Z) (Some t2); mk_session 2 40 t3 None None] in
  exists sessions : list ChargingSession,
    get_sessions "" None db
    = (Returned (JDict [("sessions", JList (map session_item sessions))]), db)
    /\ Permutation db sessions
    /\ StronglySorted
         (fun a b => dt_leb (start_time b) (start_time a) = true) sessions
    /\ forall s, In s sessions ->
         session_item s
         = JDict [("id", JInt (id s));
                  ("start_percentage", JInt (start_percentage s));
                  ("start_time", JStr (isoformat (start_time s)));
                  ("end_percentage",
                   match end_percentage s with
                   | Some p => JInt p
                   | None => JNone
                   end);
                  ("end_time",
                   match end_time s with
                   | Some t => JStr (isoformat t)
                   | None => JNone
                   end)].
Proof.
  intros t1 t2 t3 db.
  apply (get_sessions_all_descending "" None db).
  reflexivity.
Defined.

(** The list a concrete table gives: the closing percentage 0 is listed as
    the number 0, the open session's end fields as null. *)
Example get_sessions_example :
  fst (get_sessions "" None
         [mk_session 1 50 (mk_datetime 2024 1 1 10 0 0 0)
            (Some 0%Z) (Some (mk_datetime 2024 1 1 12 30 0 0));
          mk_session 2 40 (mk_datetime 2024 1 2 9 0 0 0) None None])
  = Returned
      (JDict
         [("sessions",
           JList
             [JDict [("id", JInt 2); ("start_percentage", JInt 40);
                     ("start_time", JStr "2024-01-02T09:00:00");
                     ("end_percentage", JNone); ("end_time", JNone)];
              JDict [("id", JInt 1); ("start_percentage", JInt 50);
                     ("start_time", JStr "2024-01-01T10:00:00");
                     ("end_percentage", JInt 0);
                     ("end_time", JStr "2024-01-01T12:30:00")]])]).
Proof. reflexivity. Qed.

(** ** What one request does to the table *)

Lemma serve_accepted_start (P : string) (c : call) (db : DB) :
  accepted_start P c = true ->
  serve P c db
  = (db ++ [mk_session (next_id db) (start_percentage_of c) (clock c) None None])%list.
Proof.
  unfold accepted_start, serve, start_percentage_of.
  destruct (target c) as [| | |request| | | |]; try discriminate.
  intros H. apply andb_prop in H. destruct H as [H Ht].
  apply andb_prop in H. destruct H as [V Hp].
  apply negb_true_iff in Hp.
  unfold create_session, bind.
  rewrite (require_auth_ok _ _ _ V), Hp, Ht. reflexivity.
Qed.

(** Every other request leaves the table alone, or closes the rows whose
    key is that of the open session found, or deletes the rows of one key,
    or deletes every row. *)
Lemma serve_not_start (P : string) (c : call) (db : DB) :
  accepted_start P c = false ->
  serve P c db = db
  \/ (exists o p,
        open_session db = Some o
        /\ serve P c db
           = map (fun r => if (id r =? id o)%Z then set_end p (clock c) r else r) db)
  \/ (exists k, serve P c db = filter (fun r => negb (id r =? k)%Z) db)
  \/ serve P c db = [].
Proof.
  unfold accepted_start, serve.
  destruct (target c) as [u| | |request| |k| |]; intros H;
    unfold get_status, get_sessions, create_session, export_csv,
      delete_session, delete_all_sessions, health_check, bind, query;
    try (left; reflexivity);
    destruct (verify_session P (cookie c)) eqn:V;
    try (rewrite (require_auth_denied _ _ _ V); left; reflexivity);
    rewrite (require_auth_ok _ _ _ V).
  - destruct (open_session db); left; reflexivity.
  - left; reflexivity.
  - simpl in H.
    destruct ((percentage request <? 0) || (percentage request >? 100))%Z;
      [left; reflexivity|].
    simpl in H. rewrite H.
    destruct (type request =? "end"); [|left; reflexivity].
    destruct (open_session db) as [o|] eqn:E; [|left; reflexivity].
    right; left. exists o, (percentage request). split; reflexivity.
  - left; reflexivity.
  - unfold query_by_id.
    destruct (first (filter (fun r => (id r =? k)%Z) db)) as [s|];
      [|destruct (fits_int64 k); left; reflexivity].
    right; right; left. exists (id s). reflexivity.
  - right; right; right. reflexivity.
Qed.

(** Rows after a request: old rows, the row a [start] adds with both end
    fields null, or an old row with both end fields set. *)
Lemma serve_rows (P : string) (c : call) (db : DB) (s' : ChargingSession) :
  In s' (serve P c db) ->
  In s' db
  \/ s' = mk_session (next_id db) (start_percentage_of c) (clock c) None None
  \/ exists r p, In r db /\ s' = set_end p (clock c) r.
Proof.
  destruct (accepted_start P c) eqn:A.
  - rewrite (serve_accepted_start _ _ _ A). intros H.
    apply in_app_or in H. destruct H as [H|[H|[]]]; auto.
  - destruct (serve_not_start P c db A) as [E|[[o [p [_ E]]]|[[k E]|E]]];
      rewrite E; intros H.
    + now left.
    + apply in_map_iff in H. destruct H as [r [Hr Hin]].
      destruct (id r =? id o)%Z; subst s'; [|now left].
      right; right. now exists r, p.
    + apply filter_In in H. now left.
    + destruct H.
Qed.

Lemma run_app (P : string) (l1 l2 : list call) (db : DB) :
  run P (l1 ++ l2) db = run P l2 (run P l1 db).
Proof. apply fold_left_app. Qed.

(** Induction over the tables the service can hold. *)
Lemma reachable_ind (P : string) (Q : DB -> Prop) :
  Q [] ->
  (forall c db, reachable P db -> Q db -> Q (serve P c db)) ->
  forall db, reachable P db -> Q db.
Proof.
  intros H0 Hstep db [calls <-].
  induction calls as [|c calls IH] using rev_ind; [exact H0|].
  rewrite run_app. simpl.
  apply Hstep; [now exists calls|exact IH].
Qed.

(** ** Primary keys stay unique *)

Lemma id_le_max_id (db : DB) (k : Z) : In k (map id db) -> (k <= max_id db)%Z.
Proof.
  induction db as [|r db IH]; simpl; [tauto|].
  intros [<-|H]; [lia|]. specialize (IH H). lia.
Qed.

Lemma next_id_fresh (db : DB) : ~ In (next_id db) (map id db).
Proof.
  intros H. destruct db as [|r db]; [exact H|].
  apply id_le_max_id in H. unfold next_id in H. lia.
Qed.

Lemma NoDup_map_filter {A B : Type} (f : A -> B) (g : A -> bool) (l : list A) :
  NoDup (map f l) -> NoDup (map f (filter g l)).
Proof.
  induction l as [|x l IH]; simpl; intros H; [exact H|].
  inversion H as [|? ? Hx Hl]; subst.
  destruct (g x); simpl; [|now apply IH].
  constructor; [|now apply IH].
  intros Hin. apply Hx.
  apply in_map_iff in Hin. destruct Hin as [y [Hy Hin]].
  apply filter_In in Hin. rewrite <- Hy. apply in_map. tauto.
Qed.

Lemma map_id_close (g : ChargingSession -> bool) (p : Z) (t : datetime) (db : DB) :
  map id (map (fun r => if g r then set_end p t r else r) db) = map id db.
Proof.
  rewrite map_map. apply map_ext. intros r. now destruct (g r).
Qed.

(** One request keeps the keys of the table distinct. *)
Lemma serve_keys_unique (P : string) (c : call) (db : DB) :
  NoDup (map id db) -> NoDup (map id (serve P c db)).
Proof.
  intros H. destruct (accepted_start P c) eqn:A.
  - rewrite (serve_accepted_start _ _ _ A), map_app. simpl.
    eapply Permutation_NoDup; [apply Permutation_cons_append|].
    constructor; [apply next_id_fresh|exact H].
  - destruct (serve_not_start P c db A) as [E|[[o [p [_ E]]]|[[k E]|E]]];
      rewrite E.
    + exact H.
    + now rewrite map_id_close.
    + now apply NoDup_map_filter.
    + constructor.
Qed.

(** Every table the service can hold satisfies the primary-key constraint. *)
Lemma reachable_keys_unique (P : string) (db : DB) :
  reachable P db -> NoDup (map id db).
Proof.
  intros Hr. induction Hr as [|c db _ IH] using reachable_ind.
  - constructor.
  - now apply serve_keys_unique.
Qed.

(** ** What an accepted [start] and an accepted [end] return *)

Lemma create_session_start (P : string) (request : SessionRequest)
    (now : datetime) (token : option string) (db : DB) :
  verify_session P token = true ->
  (0 <= percentage request <= 100)%Z ->
  type request = "start" ->
  create_session P request now token db
  = (Returned
       (JDict
          [("message",
            JStr ("Recorded " ++ str_int (percentage request) ++ "% as start charge"));
           ("session",
            JDict [("id", JInt (next_id db));
                   ("start_percentage", JInt (percentage request));
                   ("start_time", JStr (isoformat now))])]),
     (db ++ [mk_session (next_id db) (percentage request) now None None])%list).
Proof.
  intros V Hp Ht. apply percentage_in_range in Hp.
  unfold create_session, bind.
  rewrite (require_auth_ok _ _ _ V), Hp, Ht. reflexivity.
Qed.

Lemma create_session_end (P : string) (request : SessionRequest)
    (now : datetime) (token : option string) (db : DB) (o : ChargingSession) :
  verify_session P token = true ->
  (0 <= percentage request <= 100)%Z ->
  type request = "end" ->
  open_session db = Some o ->
  create_session P request now token db
  = (Returned
       (JDict
          [("message",
            JStr ("Recorded " ++ str_int (percentage request) ++ "% as end charge"));
           ("session",
            JDict [("id", JInt (id o));
                   ("start_percentage", JInt (start_percentage o));
                   ("start_time", JStr (isoformat (start_time o)));
                   ("end_percentage", JInt (percentage request));
                   ("end_time", JStr (isoformat now))])]),
     map (fun r => if (id r =? id o)%Z
                   then set_end (percentage request) now r else r) db).
Proof.
  intros V Hp Ht E. apply percentage_in_range in Hp.
  unfold create_session, bind, query.
  rewrite (require_auth_ok _ _ _ V), Hp, Ht.
  change ("end" =? "start") with false. change ("end" =? "end") with true.
  cbv beta iota. rewrite E. reflexivity.
Qed.

(** ** The two end fields go together *)

(** C10. In every table the service can hold, a row has a null
    [end_percentage] exactly when it has a null [end_time].  An accepted
    [start] stores its row with both end fields null; an accepted [end]
    sets both end fields of the row the query selected, to the percentage
    and the time of the request, in the one update; and the rows any
    request leaves in the table are rows it found there, the row a [start]
    stored with both fields null, or a row it found with both fields set,
    so no request sets or clears one of the two alone. *)
Theorem end_fields_set_together (P : string) :
  (forall db, reachable P db ->
     forall s, In s db -> (end_percentage s = None <-> end_time s = None))
  /\ (forall request now token db,
        verify_session P token = true ->
        (0 <= percentage request <= 100)%Z ->
        type request = "start" ->
        snd (create_session P request now token db)
        = (db ++ [mk_session (next_id db) (percentage request) now None None])%list)
  /\ (forall request now token db o,
        verify_session P token = true ->
        (0 <= percentage request <= 100)%Z ->
        type request = "end" ->
        open_session db = Some o ->
        snd (create_session P request now token db)
        = map (fun r => if (id r =? id o)%Z
                        then mk_session (id r) (start_percentage r) (start_time r)
                               (Some (percentage request)) (Some now)
                        else r) db
        /\ In (mk_session (id o) (start_percentage o) (start_time o)
                 (Some (percentage request)) (Some now))
              (snd (create_session P request now token db)))
  /\ (forall c db s', In s' (serve P c db) ->
        In s' db
        \/ (s' = mk_session (next_id db) (start_percentage_of c) (clock c) None None)
        \/ (exists r p, In r db
              /\ s' = mk_session (id r) (start_percentage r) (start_time r)
                        (Some p) (Some (clock c)))).
Proof.
  split; [|split; [|split]].
  - intros db Hr. induction Hr as [|c db _ IH] using reachable_ind.
    + intros s [].
    + intros s Hs.
      destruct (serve_rows P c db s Hs) as [H|[->|[r [p [_ ->]]]]].
      * now apply IH.
      * simpl. tauto.
      * simpl. split; discriminate.
  - intros request now token db V Hp Ht.
    now rewrite (create_session_start _ _ _ _ _ V Hp Ht).
  - intros request now token db o V Hp Ht E.
    rewrite (create_session_end _ _ _ _ _ o V Hp Ht E). cbn [snd].
    split; [reflexivity|].
    destruct (open_session_Some db o E) as [Hin _].
    apply in_map_iff. exists o. split; [|exact Hin].
    now rewrite Z.eqb_refl.
  - intros c db s' H. exact (serve_rows P c db s' H).
Qed.

Lemma end_fields_set_together_witness :
  let t1 := mk_datetime 2024 1 1 10 0 0 0 in
  let t2 := mk_datetime 2024 1 1 12 30 0 0 in
  let s := mk_session 1 50 t1 (Some 80%Z) (Some t2) in
  (end_percentage s = None <-> end_time s = None)
  /\ snd (create_session "" (mk_session_request 50 "start") t1 None [])
     = [mk_session 1 50 t1 None None]
  /\ snd (create_session "" (mk_session_request 80 "end") t2 None
            [mk_session 1 50 t1 None None])
     = [s].
Proof.
  intros t1 t2 s.
  destruct (end_fields_set_together "") as [Hinv [Hstart [Hend _]]].
  split; [|split].
  - apply (Hinv [s]).
    + exists [mk_call (PostSessions (mk_session_request 50 "start")) None t1;
              mk_call (PostSessions (mk_session_request 80 "end")) None t2].
      reflexivity.
    + now left.
  - apply (Hstart (mk_session_request 50 "start") t1 None []);
      [reflexivity | simpl; lia | reflexivity].
  - refine (proj1 (Hend (mk_session_request 80 "end") t2 None
                     [mk_session 1 50 t1 None None]
                     (mk_session 1 50 t1 None None) _ _ _ _));
      [reflexivity | simpl; lia | reflexivity | reflexivity].
Defined.

(** ** How many sessions are open *)

Lemma open_count_app (l1 l2 : DB) :
  open_count (l1 ++ l2)%list = (open_count l1 + open_count l2)%nat.
Proof. unfold open_count. now rewrite filter_app, length_app. Qed.

Lemma open_count_close (g : ChargingSession -> bool) (p : Z) (t : datetime) (db : DB) :
  (open_count (map (fun r => if g r then set_end p t r else r) db)
   <= open_count db)%nat.
Proof.
  unfold open_count.
  induction db as [|r db IH]; simpl; [lia|].
  destruct (g r); simpl; destruct (is_open r); simpl; lia.
Qed.

Lemma open_count_filter (g : ChargingSession -> bool) (db : DB) :
  (open_count (filter g db) <= open_count db)%nat.
Proof.
  unfold open_count.
  induction db as [|r db IH]; simpl; [lia|].
  destruct (g r); simpl; destruct (is_open r); simpl; lia.
Qed.

Lemma open_count_accepted_start (P : string) (c : call) (db : DB) :
  accepted_start P c = true ->
  open_count (serve P c db) = S (open_count db).
Proof.
  intros A. rewrite (serve_accepted_start _ _ _ A), open_count_app.
  unfold open_count at 2. simpl. lia.
Qed.

Lemma open_count_not_start (P : string) (c : call) (db : DB) :
  accepted_start P c = false ->
  (open_count (serve P c db) <= open_count db)%nat.
Proof.
  intros A.
  destruct (serve_not_start P c db A) as [E|[[o [p [_ E]]]|[[k E]|E]]];
    rewrite E.
  - lia.
  - apply open_count_close.
  - apply open_count_filter.
  - unfold open_count. simpl. lia.
Qed.

Lemma at_most_one_open_from (P : string) (calls : list call) (db : DB) :
  (open_count db <= 1)%nat ->
  starts_only_when_idle P calls db ->
  (open_count (run P calls db) <= 1)%nat.
Proof.
  revert db. induction calls as [|c calls IH]; intros db Hdb Hok; [exact Hdb|].
  destruct Hok as [Hc Hrest]. simpl. apply IH; [|exact Hrest].
  destruct (accepted_start P c) eqn:A.
  - rewrite (open_count_accepted_start _ _ _ A), (Hc eq_refl). lia.
  - pose proof (open_count_not_start P c db A). lia.
Qed.

(** Two [start] requests in a row leave two sessions open. *)
Lemma two_starts_leave_two_open :
  ~ (forall db : DB, reachable "" db -> (open_count db <= 1)%nat).
Proof.
  intros H.
  specialize (H (run "" [mk_call (PostSessions (mk_session_request 50 "start")) None t_0;
                         mk_call (PostSessions (mk_session_request 60 "start")) None t_1]
                   [])).
  assert (R : reachable ""
                (run "" [mk_call (PostSessions (mk_session_request 50 "start")) None t_0;
                         mk_call (PostSessions (mk_session_request 60 "start")) None t_1]
                   []))
    by (eexists; reflexivity).
  apply H in R. vm_compute in R. lia.
Qed.

(** C1, as the code has it.  An accepted [start] adds one open session
    whether or not one is open already, and no other request adds any; so
    in a table produced from the empty one by requests among which a
    [start] is accepted only while no session is open, at most one session
    has both end fields null. *)
Theorem at_most_one_open_when_starts_are_idle (P : string) :
  (forall c db, accepted_start P c = true ->
     open_count (serve P c db) = S (open_count db))
  /\ (forall c db, accepted_start P c = false ->
        (open_count (serve P c db) <= open_count db)%nat)
  /\ (forall calls, starts_only_when_idle P calls [] ->
        (open_count (run P calls []) <= 1)%nat).
Proof.
  split; [|split].
  - intros c db. apply open_count_accepted_start.
  - intros c db. apply open_count_not_start.
  - intros calls. apply at_most_one_open_from. unfold open_count. simpl. lia.
Qed.

Lemma at_most_one_open_when_starts_are_idle_witness :
  (open_count
     (run "" [mk_call (PostSessions (mk_session_request 50 "start")) None t_0;
              mk_call (PostSessions (mk_session_request 80 "end")) None t_1;
              mk_call (PostSessions (mk_session_request 20 "start")) None t_1]
        []) <= 1)%nat.
Proof.
  apply (proj2 (proj2 (at_most_one_open_when_starts_are_idle ""))).
  cbn [starts_only_when_idle].
  repeat split; intros A; first [reflexivity | vm_compute in A; discriminate A].
Defined.

(** ** CSV export *)

Lemma append_assoc (a b c : string) : (a ++ b) ++ c = a ++ (b ++ c).
Proof. induction a as [|x a IH]; simpl; [reflexivity|now rewrite IH]. Qed.

Lemma append_empty_r (a : string) : a ++ "" = a.
Proof. induction a as [|x a IH]; simpl; [reflexivity|now rewrite IH]. Qed.

(** The loop of [export_csv] writes the header line and then one line per
    session, in the order of [sessions]. *)
Lemma csv_content_lines (sessions : list ChargingSession) :
  csv_content sessions
  = writerow csv_header ++ lines (map (fun s => writerow (csv_row s)) sessions).
Proof.
  unfold csv_content. generalize (writerow csv_header) as output.
  induction sessions as [|s sessions IH]; intros output; simpl.
  - now rewrite append_empty_r.
  - now rewrite IH, append_assoc.
Qed.

(** Numbers and ISO timestamps are written without quotes. *)
Lemma needs_quotes_app (a b : string) :
  needs_quotes (a ++ b) = needs_quotes a || needs_quotes b.
Proof.
  induction a as [|x a IH]; simpl; [reflexivity|].
  rewrite IH. now rewrite !orb_assoc.
Qed.

Lemma needs_quotes_uint (d : Decimal.uint) :
  needs_quotes (NilEmpty.string_of_uint d) = false.
Proof. induction d as [|d IH|d IH|d IH|d IH|d IH|d IH|d IH|d IH|d IH|d IH];
         first [reflexivity | exact IH]. Qed.

Lemma needs_quotes_str_int (n : Z) : needs_quotes (str_int n) = false.
Proof.
  unfold str_int, NilZero.string_of_int, NilZero.string_of_uint.
  destruct (Z.to_int n) as [d|d];
    destruct d as [|d'|d'|d'|d'|d'|d'|d'|d'|d'|d'];
    first [reflexivity | exact (needs_quotes_uint d')].
Qed.

Lemma needs_quotes_zeros (n : nat) : needs_quotes (zeros n) = false.
Proof. induction n; simpl; auto. Qed.

Lemma needs_quotes_zero_pad (w : nat) (n : Z) : needs_quotes (zero_pad w n) = false.
Proof.
  unfold zero_pad. cbv zeta.
  now rewrite needs_quotes_app, needs_quotes_zeros, needs_quotes_str_int.
Qed.

Lemma needs_quotes_isoformat (d : datetime) : needs_quotes (isoformat d) = false.
Proof.
  unfold isoformat.
  rewrite !needs_quotes_app, !needs_quotes_zero_pad.
  destruct (microsecond d =? 0)%Z; simpl; [reflexivity|].
  apply needs_quotes_zero_pad.
Qed.

Lemma csv_field_int (n : Z) : csv_field (CInt n) = str_int n.
Proof. unfold csv_field. simpl. now rewrite needs_quotes_str_int. Qed.

Lemma csv_field_isoformat (d : datetime) :
  csv_field (CStr (isoformat d)) = isoformat d.
Proof. unfold csv_field. simpl. now rewrite needs_quotes_isoformat. Qed.

(** The line of an open session, of a session closed at a percentage other
    than 0, and of a session closed at 0. *)
Lemma writerow_open (s : ChargingSession) :
  end_percentage s = None -> end_time s = None ->
  writerow (csv_row s)
  = str_int (start_percentage s) ++ "," ++ isoformat (start_time s)
    ++ "," ++ "" ++ "," ++ "" ++ lineterminator.
Proof.
  intros Hp Ht. unfold writerow, csv_row. rewrite Hp, Ht.
  cbn [opt_int_truthy opt_datetime_truthy map join].
  rewrite csv_field_int, csv_field_isoformat.
  change (csv_field (CStr "")) with "". now rewrite !append_assoc.
Qed.

Lemma writerow_closed (s : ChargingSession) (p : Z) (t : datetime) :
  end_percentage s = Some p -> end_time s = Some t -> p <> 0%Z ->
  writerow (csv_row s)
  = str_int (start_percentage s) ++ "," ++ isoformat (start_time s)
    ++ "," ++ str_int p ++ "," ++ isoformat t ++ lineterminator.
Proof.
  intros Hp Ht Hnz. unfold writerow, csv_row. rewrite Hp, Ht.
  apply Z.eqb_neq in Hnz.
  cbn [opt_int_truthy opt_datetime_truthy map join]. rewrite Hnz.
  cbn [negb]. rewrite !csv_field_int, !csv_field_isoformat.
  now rewrite !append_assoc.
Qed.

Lemma writerow_closed_at_zero (s : ChargingSession) (t : datetime) :
  end_percentage s = Some 0%Z -> end_time s = Some t ->
  writerow (csv_row s)
  = str_int (start_percentage s) ++ "," ++ isoformat (start_time s)
    ++ "," ++ "" ++ "," ++ isoformat t ++ lineterminator.
Proof.
  intros Hp Ht. unfold writerow, csv_row. rewrite Hp, Ht.
  cbn [opt_int_truthy opt_datetime_truthy map join Z.eqb negb].
  rewrite !csv_field_int, !csv_field_isoformat.
  change (csv_field (CStr "")) with "". now rewrite !append_assoc.
Qed.

(** The export is the header line followed by one line per stored session,
    ascending by [start_time]. *)
Lemma export_csv_lines (P : string) (token : option string) (db : DB) :
  verify_session P token = true ->
  exists sessions : list ChargingSession,
    export_csv P token db
    = (Returned
         (mk_response
            ("start_percentage,start_datetime,end_percentage,end_datetime"
             ++ lineterminator
             ++ lines (map (fun s => writerow (csv_row s)) sessions))
            "text/csv"
            [("Content-Disposition", "attachment; filename=charging_sessions.csv")]),
       db)
    /\ Permutation db sessions
    /\ StronglySorted
         (fun a b => dt_leb (start_time a) (start_time b) = true) sessions.
Proof.
  intros V. exists (order_by start_time_asc db).
  repeat split.
  - unfold export_csv, bind, query.
    rewrite (require_auth_ok _ _ _ V), csv_content_lines.
    unfold ret. do 3 f_equal.
  - apply order_by_perm.
  - apply (order_by_sorted start_time_asc).
    + intros a b. apply dt_leb_total.
    + intros a b c. apply dt_leb_trans.
Qed.

(** C4, at the input where the code departs from it.  A session started at
    50 and closed at 0 is exported with an empty [end_percentage] cell, the
    cell an open session gets, while the same row is listed by
    [get_sessions] with [end_percentage] 0. *)
Theorem export_csv_loses_zero_end_percentage :
  let s := mk_session 1 50 t_0 (Some 0%Z) (Some t_1) in
  fst (export_csv "" None [s])
  = Returned
      (mk_response
         ("start_percentage,start_datetime,end_percentage,end_datetime"
          ++ lineterminator
          ++ "50,2024-01-01T10:00:00,,2024-01-01T11:00:00" ++ lineterminator)
         "text/csv"
         [("Content-Disposition", "attachment; filename=charging_sessions.csv")])
  /\ reachable ""  [s]
  /\ fst (get_sessions "" None [s])
     = Returned
         (JDict
            [("sessions",
              JList [JDict [("id", JInt 1); ("start_percentage", JInt 50);
                            ("start_time", JStr "2024-01-01T10:00:00");
                            ("end_percentage", JInt 0);
                            ("end_time", JStr "2024-01-01T11:00:00")]])]).
Proof.
  intros s. split; [reflexivity|]. split; [|reflexivity].
  exists [mk_call (PostSessions (mk_session_request 50 "start")) None t_0;
          mk_call (PostSessions (mk_session_request 0 "end")) None t_1].
  reflexivity.
Qed.


(** * Further properties of the handlers *)

Local Open Scope string_scope.

(** ** [create_session]: what it does to the table, case by case *)

Lemma create_session_table (P : string) (request : SessionRequest)
    (now : datetime) (token : option string) (db : DB) :
  snd (create_session P request now token db)
  = if verify_session P token
       && negb ((percentage request <? 0) || (percentage request >? 100))%Z
    then
      if type request =? "start"
      then (db ++ [mk_session (next_id db) (percentage request) now None None])%list
      else if type request =? "end"
      then match open_session db with
           | Some o =>
               map (fun r => if (id r =? id o)%Z
                             then set_end (percentage request) now r else r) db
           | None => db
           end
      else db
    else db.
Proof.
  unfold create_session, bind, query.
  destruct (verify_session P token) eqn:V.
  - rewrite (require_auth_ok _ _ _ V).
    destruct ((percentage request <? 0) || (percentage request >? 100))%Z;
      [reflexivity|].
    cbn [negb andb].
    destruct (type request =? "start"); [reflexivity|].
    destruct (type request =? "end"); [|reflexivity].
    destruct (open_session db); reflexivity.
  - rewrite (require_auth_denied _ _ _ V). reflexivity.
Qed.

Lemma keys_below_next_id (db : DB) (k : Z) :
  In k (map id db) -> (k < next_id db)%Z.
Proof.
  intros H. pose proof (id_le_max_id db k H).
  destruct db as [|r db]; [destruct H|]. unfold next_id. lia.
Qed.

Lemma keys_injective (db : DB) (a b : ChargingSession) :
  NoDup (map id db) -> In a db -> In b db -> id a = id b -> a = b.
Proof.
  induction db as [|r db IH]; simpl; intros H Ha Hb E; [tauto|].
  inversion H as [|? ? Hr Hdb]; subst.
  destruct Ha as [->|Ha], Hb as [->|Hb]; auto.
  - exfalso. apply Hr. rewrite E. now apply in_map.
  - exfalso. apply Hr. rewrite <- E. now apply in_map.
Qed.

(** X1. A request past the gate with a percentage in range and a type that
    is neither [start] nor [end] is refused with 400 and the detail
    [Type must be 'start' or 'end']; the table is returned as it was. *)
Theorem unknown_type_rejected (P : string) (request : SessionRequest)
    (now : datetime) (token : option string) (db : DB) :
  verify_session P token = true ->
  (0 <= percentage request <= 100)%Z ->
  type request <> "start" -> type request <> "end" ->
  create_session P request now token db
  = (Raised (mk_exn 400 "Type must be 'start' or 'end'"), db).
Proof.
  intros V Hp Hs He. apply percentage_in_range in Hp.
  apply String.eqb_neq in Hs. apply String.eqb_neq in He.
  unfold create_session, bind.
  rewrite (require_auth_ok _ _ _ V), Hp, Hs, He. reflexivity.
Qed.

Lemma unknown_type_rejected_witness :
  create_session "" (mk_session_request 50 "Start") t_0 None []
  = (Raised (mk_exn 400 "Type must be 'start' or 'end'"), []).
Proof.
  apply (unknown_type_rejected "" (mk_session_request 50 "Start") t_0 None []);
    [reflexivity | simpl; lia | discriminate | discriminate].
Defined.

(** X2. An accepted [start] appends one row and changes no other: the row
    has a key larger than every key of the table, the percentage and the
    time of the request, and null end fields, and the response carries that
    key.  The status is then [charging]; it shows the new percentage when
    every session open before started strictly earlier. *)
Theorem start_appends_open_session (P : string) (request : SessionRequest)
    (now : datetime) (token : option string) (db : DB) :
  verify_session P token = true ->
  (0 <= percentage request <= 100)%Z ->
  type request = "start" ->
  let session := mk_session (next_id db) (percentage request) now None None in
  let db' := (db ++ [session])%list in
  create_session P request now token db
  = (Returned
       (JDict
          [("message",
            JStr ("Recorded " ++ str_int (percentage request) ++ "% as start charge"));
           ("session",
            JDict [("id", JInt (next_id db));
                   ("start_percentage", JInt (percentage request));
                   ("start_time", JStr (isoformat now))])]),
     db')
  /\ (forall k, In k (map id db) -> (k < next_id db)%Z)
  /\ (exists o, In o db'
        /\ get_status P token db'
           = (Returned (JDict [("status", JStr "charging");
                               ("start_percentage", JInt (start_percentage o));
                               ("start_time", JStr (isoformat (start_time o)))]),
              db'))
  /\ ((forall s, In s db -> end_percentage s = None ->
         dt_leb now (start_time s) = false) ->
      get_status P token db'
      = (Returned (JDict [("status", JStr "charging");
                          ("start_percentage", JInt (percentage request));
                          ("start_time", JStr (isoformat now))]),
         db')).
Proof.
  intros V Hp Ht session db'.
  split; [now apply create_session_start|].
  split; [intros k; apply keys_below_next_id|].
  assert (Hnew : In session db') by (apply in_or_app; right; now left).
  destruct (open_session db') as [o|] eqn:E.
  2:{ exfalso. exact (proj1 (open_session_None db') E session Hnew eq_refl). }
  destruct (open_session_Some db' o E) as [Hin [Ho Hmax]].
  assert (St : get_status P token db'
               = (Returned (JDict [("status", JStr "charging");
                                   ("start_percentage", JInt (start_percentage o));
                                   ("start_time", JStr (isoformat (start_time o)))]),
                  db')).
  { unfold get_status, bind, query.
    rewrite (require_auth_ok _ _ _ V), E. reflexivity. }
  split; [now exists o|].
  intros Hlater.
  assert (o = session) as ->; [|exact St].
  apply in_app_or in Hin. destruct Hin as [Hin|[<-|[]]]; [|reflexivity].
  specialize (Hmax session Hnew eq_refl). simpl in Hmax.
  rewrite (Hlater o Hin Ho) in Hmax. discriminate.
Qed.

Lemma start_appends_open_session_witness :
  let old := mk_session 4 30 t_0 None None in
  get_status "" None [old; mk_session 5 60 t_1 None None]
  = (Returned (JDict [("status", JStr "charging");
                      ("start_percentage", JInt 60);
                      ("start_time", JStr (isoformat t_1))]),
     [old; mk_session 5 60 t_1 None None]).
Proof.
  intros old.
  refine (proj2 (proj2 (proj2
    (start_appends_open_session "" (mk_session_request 60 "start") t_1 None [old]
       _ _ _))) _).
  - reflexivity.
  - simpl; lia.
  - reflexivity.
  - intros s [<-|[]] _. reflexivity.
Defined.

(** X3. The status is [idle] exactly when no row has a null
    [end_percentage]; otherwise it is [charging] with the start fields of a
    stored row whose [end_percentage] is null. *)
Theorem get_status_idle_iff (P : string) (token : option string) (db : DB) :
  verify_session P token = true ->
  (get_status P token db = (Returned (JDict [("status", JStr "idle")]), db)
   <-> forall s, In s db -> end_percentage s <> None)
  /\ (get_status P token db = (Returned (JDict [("status", JStr "idle")]), db)
      \/ exists o, In o db /\ end_percentage o = None
           /\ get_status P token db
              = (Returned (JDict [("status", JStr "charging");
                                  ("start_percentage", JInt (start_percentage o));
                                  ("start_time", JStr (isoformat (start_time o)))]),
                 db)).
Proof.
  intros V.
  unfold get_status, bind, query. rewrite (require_auth_ok _ _ _ V).
  destruct (open_session db) as [o|] eqn:E.
  - destruct (open_session_Some db o E) as [Hin [Ho _]]. split.
    + split; [discriminate|].
      intros H. exfalso. exact (H o Hin Ho).
    + right. exists o. repeat split; assumption.
  - split; [|now left].
    split; [intros _; now apply open_session_None|reflexivity].
Qed.

Lemma get_status_idle_iff_witness :
  get_status "" None [mk_session 1 50 t_0 (Some 0%Z) (Some t_1)]
  = (Returned (JDict [("status", JStr "idle")]),
     [mk_session 1 50 t_0 (Some 0%Z) (Some t_1)]).
Proof.
  apply (proj1 (get_status_idle_iff "" None
                  [mk_session 1 50 t_0 (Some 0%Z) (Some t_1)] eq_refl)).
  intros s [<-|[]]. discriminate.
Defined.

(** X4. The status, the list, the CSV export and the health check never
    change the table, whatever token comes with the request. *)
Theorem reads_leave_table_unchanged (P : string) (token : option string) (db : DB) :
  snd (get_status P token db) = db
  /\ snd (get_sessions P token db) = db
  /\ snd (export_csv P token db) = db
  /\ snd (health_check db) = db.
Proof.
  unfold get_status, get_sessions, export_csv, health_check, bind, query.
  destruct (verify_session P token) eqn:V.
  - rewrite (require_auth_ok _ _ _ V).
    destruct (open_session db); repeat split.
  - rewrite (require_auth_denied _ _ _ V). repeat split.
Qed.

(** X5. A request that ends in an exception leaves the table as it was,
    and the exception is one of five: 401 [Unauthorized], 400 for the
    percentage, 400 for no open session, 400 for the type, 404 for an
    unknown session. *)
Theorem refused_request_changes_nothing (P : string) (c : call) (db : DB)
    (e : HTTPException) :
  failure P c db = Some e ->
  serve P c db = db
  /\ In e [mk_exn 401 "Unauthorized";
           mk_exn 400 "Percentage must be between 0 and 100";
           mk_exn 400 "No active charging session found";
           mk_exn 400 "Type must be 'start' or 'end'";
           mk_exn 404 "Session not found"].
Proof.
  unfold failure, serve.
  destruct (target c) as [u| | |request| |k| |];
    unfold get_status, get_sessions, create_session, export_csv,
      delete_session, delete_all_sessions, health_check, bind, query;
    try discriminate;
    (destruct (verify_session P (cookie c)) eqn:V;
     [rewrite (require_auth_ok _ _ _ V)
     |rewrite (require_auth_denied _ _ _ V); simpl;
      intros [= <-]; split; [reflexivity|now left]]).
  - destruct (open_session db); discriminate.
  - discriminate.
  - destruct ((percentage request <? 0) || (percentage request >? 100))%Z.
    { simpl. intros [= <-]. split; [reflexivity|right; now left]. }
    destruct (type request =? "start"); [discriminate|].
    destruct (type request =? "end").
    + destruct (open_session db); [discriminate|].
      simpl. intros [= <-]. split; [reflexivity|right; right; now left].
    + simpl. intros [= <-]. split; [reflexivity|do 3 right; now left].
  - discriminate.
  - unfold query_by_id.
    destruct (first (filter (fun r => (id r =? k)%Z) db)); [discriminate|].
    destruct (fits_int64 k); [|discriminate].
    simpl. intros [= <-]. split; [reflexivity|do 4 right; now left].
  - discriminate.
Qed.

Lemma refused_request_changes_nothing_witness :
  serve "" (mk_call (DeleteSession 7) None t_0) [mk_session 1 50 t_0 None None]
  = [mk_session 1 50 t_0 None None].
Proof.
  exact (proj1 (refused_request_changes_nothing ""
                  (mk_call (DeleteSession 7) None t_0)
                  [mk_session 1 50 t_0 None None]
                  (mk_exn 404 "Session not found") eq_refl)).
Defined.

(** ** Deleting *)

Lemma first_by_id_None (k : Z) (db : DB) :
  first (filter (fun r => (id r =? k)%Z) db) = None <-> ~ In k (map id db).
Proof.
  induction db as [|r db IH]; simpl; [tauto|].
  destruct (Z.eqb_spec (id r) k) as [E|E]; simpl.
  - split; [discriminate|]. intros H. exfalso. apply H. now left.
  - rewrite IH. tauto.
Qed.

Lemma first_by_id_Some (k : Z) (db : DB) (s : ChargingSession) :
  first (filter (fun r => (id r =? k)%Z) db) = Some s -> In s db /\ id s = k.
Proof.
  induction db as [|r db IH]; simpl; [discriminate|].
  destruct (Z.eqb_spec (id r) k) as [E|E]; simpl.
  - intros [= <-]. auto.
  - intros H. destruct (IH H). auto.
Qed.

(** On a table whose keys are all 64-bit, as SQLite's are, the query is:
    bind the parameter, then look the key up. *)
Lemma query_by_id_binds_then_looks_up (k : Z) (db : DB) :
  Forall (fun s => fits_int64 (id s) = true) db ->
  query_by_id k db
  = if fits_int64 k
    then (Returned (first (filter (fun r => (id r =? k)%Z) db)), db)
    else (Unhandled "OverflowError", db).
Proof.
  intros Hfit. unfold query_by_id.
  destruct (first (filter (fun r => (id r =? k)%Z) db)) as [s|] eqn:E.
  - apply first_by_id_Some in E. destruct E as [Hin <-].
    rewrite Forall_forall in Hfit. now rewrite (Hfit s Hin).
  - reflexivity.
Qed.

Lemma delete_session_found (P : string) (k : Z) (token : option string) (db : DB) :
  verify_session P token = true ->
  In k (map id db) ->
  delete_session P k token db
  = (Returned (JDict [("message", JStr "Session deleted")]),
     filter (fun r => negb (id r =? k)%Z) db).
Proof.
  intros V Hk. unfold delete_session, bind, query_by_id.
  rewrite (require_auth_ok _ _ _ V).
  destruct (first (filter (fun r => (id r =? k)%Z) db)) as [s|] eqn:E.
  - apply first_by_id_Some in E. destruct E as [_ <-]. reflexivity.
  - apply first_by_id_None in E. contradiction.
Qed.

Lemma filter_other_keys (k : Z) (l : DB) :
  ~ In k (map id l) -> filter (fun r => negb (id r =? k)%Z) l = l.
Proof.
  induction l as [|r l IH]; simpl; intros H; [reflexivity|].
  destruct (Z.eqb_spec (id r) k) as [E|E]; [tauto|].
  simpl. f_equal. apply IH. tauto.
Qed.

(** X6. Deleting a key the table does not hold changes nothing.  When the
    key fits in a signed 64-bit integer the request is refused with 404 and
    the detail [Session not found]; this is what a second deletion of the
    same key gets.  When it does not fit, the query dies with
    [OverflowError], which is not an [HTTPException]. *)
Theorem delete_unknown_session (P : string) (k : Z) (token : option string) (db : DB) :
  verify_session P token = true ->
  (~ In k (map id db) -> fits_int64 k = true ->
   delete_session P k token db = (Raised (mk_exn 404 "Session not found"), db))
  /\ (~ In k (map id db) -> fits_int64 k = false ->
      delete_session P k token db = (Unhandled "OverflowError", db))
  /\ (In k (map id db) -> fits_int64 k = true ->
      delete_session P k token (snd (delete_session P k token db))
      = (Raised (mk_exn 404 "Session not found"),
         snd (delete_session P k token db))).
Proof.
  intros V.
  assert (Hmiss : forall d, ~ In k (map id d) ->
            delete_session P k token d
            = (if fits_int64 k
               then Raised (mk_exn 404 "Session not found")
               else Unhandled "OverflowError", d)).
  { intros d Hk. unfold delete_session, bind, query_by_id.
    rewrite (require_auth_ok _ _ _ V).
    apply first_by_id_None in Hk. rewrite Hk.
    destruct (fits_int64 k); reflexivity. }
  split; [|split].
  - intros Hk Hf. now rewrite (Hmiss db Hk), Hf.
  - intros Hk Hf. now rewrite (Hmiss db Hk), Hf.
  - intros Hk Hf. rewrite Hmiss; [now rewrite Hf|].
    rewrite (delete_session_found _ _ _ _ V Hk). simpl.
    intros Hin. apply in_map_iff in Hin. destruct Hin as [r [Hr Hin]].
    apply filter_In in Hin. destruct Hin as [_ Hin].
    apply negb_true_iff, Z.eqb_neq in Hin. contradiction.
Qed.

Lemma delete_unknown_session_witness :
  delete_session "" 7 None [mk_session 1 50 t_0 None None]
  = (Raised (mk_exn 404 "Session not found"), [mk_session 1 50 t_0 None None])
  /\ delete_session "" (2 ^ 63) None [mk_session 1 50 t_0 None None]
     = (Unhandled "OverflowError", [mk_session 1 50 t_0 None None]).
Proof.
  split.
  - apply (proj1 (delete_unknown_session "" 7 None
                    [mk_session 1 50 t_0 None None] eq_refl));
      [simpl; intros [H|[]]; discriminate | reflexivity].
  - apply (proj1 (proj2 (delete_unknown_session "" (2 ^ 63) None
                           [mk_session 1 50 t_0 None None] eq_refl)));
      [simpl; intros [H|[]]; discriminate | reflexivity].
Defined.

(** X7. Deleting a key the table holds removes that row and nothing else:
    the other rows stay, in their order, the key is gone, and the table is
    one row shorter. *)
Theorem delete_removes_one_row (P : string) (k : Z) (token : option string) (db : DB) :
  verify_session P token = true ->
  NoDup (map id db) ->
  In k (map id db) ->
  exists l1 r l2,
    db = (l1 ++ r :: l2)%list /\ id r = k
    /\ delete_session P k token db
       = (Returned (JDict [("message", JStr "Session deleted")]), (l1 ++ l2)%list)
    /\ ~ In k (map id (l1 ++ l2)%list).
Proof.
  intros V Hkey Hk.
  apply in_map_iff in Hk. destruct Hk as [r [Hr Hin]].
  destruct (in_split _ _ Hin) as [l1 [l2 Hdb]].
  exists l1, r, l2. subst db.
  assert (Hfresh : ~ In k (map id (l1 ++ l2)%list)).
  { rewrite map_app in Hkey. simpl in Hkey.
    apply NoDup_remove_2 in Hkey. now rewrite map_app, <- Hr. }
  repeat split; [exact Hr| |exact Hfresh].
  rewrite delete_session_found;
    [|exact V|rewrite <- Hr; apply in_map, in_or_app; right; now left].
  f_equal. rewrite filter_app. simpl.
  rewrite Hr, Z.eqb_refl. simpl.
  rewrite map_app in Hfresh.
  rewrite !filter_other_keys; [reflexivity| |];
    intros H; apply Hfresh, in_or_app; tauto.
Qed.

Lemma delete_removes_one_row_witness :
  exists l1 r l2,
    [mk_session 1 50 t_0 None None; mk_session 2 60 t_1 None None]
    = (l1 ++ r :: l2)%list /\ id r = 1%Z
    /\ delete_session "" 1 None
         [mk_session 1 50 t_0 None None; mk_session 2 60 t_1 None None]
       = (Returned (JDict [("message", JStr "Session deleted")]), (l1 ++ l2)%list)
    /\ ~ In 1%Z (map id (l1 ++ l2)%list).
Proof.
  apply (delete_removes_one_row "" 1 None
           [mk_session 1 50 t_0 None None; mk_session 2 60 t_1 None None]).
  - reflexivity.
  - repeat constructor; simpl; intuition discriminate.
  - now left.
Defined.

(** X8. [delete_all_sessions] past the gate empties the table whatever it
    held; the list of sessions is then empty, the status is [idle], and the
    CSV export is the header line alone. *)
Theorem delete_all_empties_table (P : string) (token : option string) (db : DB) :
  verify_session P token = true ->
  delete_all_sessions P token db
  = (Returned (JDict [("message", JStr "All sessions deleted")]), [])
  /\ get_sessions P token (snd (delete_all_sessions P token db))
     = (Returned (JDict [("sessions", JList [])]), [])
  /\ get_status P token (snd (delete_all_sessions P token db))
     = (Returned (JDict [("status", JStr "idle")]), [])
  /\ fst (export_csv P token (snd (delete_all_sessions P token db)))
     = Returned
         (mk_response
            ("start_percentage,start_datetime,end_percentage,end_datetime"
             ++ lineterminator)
            "text/csv"
            [("Content-Disposition", "attachment; filename=charging_sessions.csv")]).
Proof.
  intros V.
  unfold delete_all_sessions, get_sessions, get_status, export_csv, bind, query.
  rewrite (require_auth_ok _ _ _ V). simpl.
  rewrite (require_auth_ok _ _ _ V). simpl.
  repeat split.
Qed.

Lemma delete_all_empties_table_witness :
  delete_all_sessions "pw" (Some "pw") [mk_session 1 50 t_0 None None]
  = (Returned (JDict [("message", JStr "All sessions deleted")]), []).
Proof.
  exact (proj1 (delete_all_empties_table "pw" (Some "pw")
                  [mk_session 1 50 t_0 None None] eq_refl)).
Defined.

(** X9. Deleting the key an accepted [start] answered with gives back the
    table as it was before the [start]. *)
Theorem start_then_delete_restores (P : string) (request : SessionRequest)
    (now : datetime) (token : option string) (db : DB) :
  verify_session P token = true ->
  (0 <= percentage request <= 100)%Z ->
  type request = "start" ->
  delete_session P (next_id db) token
    (snd (create_session P request now token db))
  = (Returned (JDict [("message", JStr "Session deleted")]), db).
Proof.
  intros V Hp Ht.
  rewrite (create_session_start _ _ _ _ _ V Hp Ht). cbn [snd].
  rewrite delete_session_found;
    [|exact V|rewrite map_app; apply in_or_app; right; now left].
  rewrite filter_app. simpl. rewrite Z.eqb_refl. simpl.
  rewrite filter_other_keys, app_nil_r; [reflexivity|apply next_id_fresh].
Qed.

Lemma start_then_delete_restores_witness :
  delete_session "" 2 None
    (snd (create_session "" (mk_session_request 60 "start") t_1 None
            [mk_session 1 50 t_0 None None]))
  = (Returned (JDict [("message", JStr "Session deleted")]),
     [mk_session 1 50 t_0 None None]).
Proof.
  apply (start_then_delete_restores "" (mk_session_request 60 "start") t_1 None
           [mk_session 1 50 t_0 None None]);
    [reflexivity | simpl; lia | reflexivity].
Defined.

(** ** Start, end, and what stays fixed *)

Lemma get_status_idle (P : string) (token : option string) (db : DB) :
  verify_session P token = true ->
  (forall s, In s db -> end_percentage s <> None) ->
  get_status P token db = (Returned (JDict [("status", JStr "idle")]), db).
Proof.
  intros V H. apply open_session_None in H.
  unfold get_status, bind, query.
  now rewrite (require_auth_ok _ _ _ V), H.
Qed.

Lemma create_session_end_idle (P : string) (request : SessionRequest)
    (now : datetime) (token : option string) (db : DB) :
  verify_session P token = true ->
  (0 <= percentage request <= 100)%Z ->
  type request = "end" ->
  (forall s, In s db -> end_percentage s <> None) ->
  create_session P request now token db
  = (Raised (mk_exn 400 "No active charging session found"), db).
Proof.
  intros V Hp Ht H. apply percentage_in_range in Hp.
  apply open_session_None in H.
  unfold create_session, bind, query.
  rewrite (require_auth_ok _ _ _ V), Hp, Ht.
  change ("end" =? "start") with false. change ("end" =? "end") with true.
  cbv beta iota. now rewrite H.
Qed.

(** X10. On a table with no open session, an accepted [start] followed by
    an accepted [end] leaves the old rows as they were and adds one closed
    row carrying the two percentages and the two times; the status is then
    [idle], and a further [end] is refused with 400 without changing the
    table. *)
Theorem start_then_end_round_trip (P : string) (p1 p2 : Z) (t1 t2 : datetime)
    (token : option string) (db : DB) :
  verify_session P token = true ->
  (0 <= p1 <= 100)%Z -> (0 <= p2 <= 100)%Z ->
  (forall s, In s db -> end_percentage s <> None) ->
  let db1 := snd (create_session P (mk_session_request p1 "start") t1 token db) in
  let db2 := (db ++ [mk_session (next_id db) p1 t1 (Some p2) (Some t2)])%list in
  create_session P (mk_session_request p2 "end") t2 token db1
  = (Returned
       (JDict
          [("message", JStr ("Recorded " ++ str_int p2 ++ "% as end charge"));
           ("session",
            JDict [("id", JInt (next_id db));
                   ("start_percentage", JInt p1);
                   ("start_time", JStr (isoformat t1));
                   ("end_percentage", JInt p2);
                   ("end_time", JStr (isoformat t2))])]),
     db2)
  /\ get_status P token db2 = (Returned (JDict [("status", JStr "idle")]), db2)
  /\ create_session P (mk_session_request p2 "end") t2 token db2
     = (Raised (mk_exn 400 "No active charging session found"), db2).
Proof.
  intros V H1 H2 Hclosed db1 db2.
  assert (Hdb2 : forall s, In s db2 -> end_percentage s <> None).
  { intros s Hs. apply in_app_or in Hs.
    destruct Hs as [Hs|[<-|[]]]; [now apply Hclosed|discriminate]. }
  split; [|split].
  - subst db1.
    rewrite (create_session_start P (mk_session_request p1 "start") t1 token db
               V H1 eq_refl).
    cbn [snd percentage].
    set (new := mk_session (next_id db) p1 t1 None None).
    assert (E : open_session (db ++ [new])%list = Some new).
    { destruct (open_session (db ++ [new])%list) as [o|] eqn:E.
      - destruct (open_session_Some _ o E) as [Hin [Ho _]].
        apply in_app_or in Hin. destruct Hin as [Hin|[<-|[]]]; [|reflexivity].
        exfalso. exact (Hclosed o Hin Ho).
      - exfalso. refine (proj1 (open_session_None _) E new _ eq_refl).
        apply in_or_app. right. now left. }
    rewrite (create_session_end P (mk_session_request p2 "end") t2 token
               (db ++ [new])%list new V H2 eq_refl E).
    cbn [percentage id start_percentage start_time new].
    f_equal. rewrite map_app. simpl. rewrite Z.eqb_refl.
    rewrite update_other_rows; [reflexivity|apply next_id_fresh].
  - now apply get_status_idle.
  - now apply create_session_end_idle.
Qed.

Lemma start_then_end_round_trip_witness :
  create_session "" (mk_session_request 80 "end") t_1 None
    (snd (create_session "" (mk_session_request 50 "start") t_0 None []))
  = (Returned
       (JDict
          [("message", JStr ("Recorded " ++ str_int 80 ++ "% as end charge"));
           ("session",
            JDict [("id", JInt 1);
                   ("start_percentage", JInt 50);
                   ("start_time", JStr (isoformat t_0));
                   ("end_percentage", JInt 80);
                   ("end_time", JStr (isoformat t_1))])]),
     [mk_session 1 50 t_0 (Some 80%Z) (Some t_1)]).
Proof.
  refine (proj1 (start_then_end_round_trip "" 50 80 t_0 t_1 None [] _ _ _ _));
    [reflexivity | lia | lia | intros s []].
Defined.

(** X11. An accepted [end] closes one session and touches nothing else:
    the keys of the table and its length are as before, and the rows with a
    null [end_percentage] afterwards are those from before except the one
    the query selected. *)
Theorem end_closes_exactly_one (P : string) (request : SessionRequest)
    (now : datetime) (token : option string) (db : DB) (o : ChargingSession) :
  NoDup (map id db) ->
  verify_session P token = true ->
  (0 <= percentage request <= 100)%Z ->
  type request = "end" ->
  open_session db = Some o ->
  let db' := snd (create_session P request now token db) in
  map id db' = map id db
  /\ List.length db' = List.length db
  /\ forall s, (In s db' /\ end_percentage s = None)
               <-> (In s db /\ end_percentage s = None /\ s <> o).
Proof.
  intros Hkey V Hp Ht E db'. subst db'.
  rewrite (create_session_end _ _ _ _ _ o V Hp Ht E). cbn [snd].
  destruct (open_session_Some db o E) as [Hin [Ho _]].
  split; [apply map_id_close|].
  split; [apply length_map|].
  destruct (in_split _ _ Hin) as [l1 [l2 Hdb]]. subst db.
  pose proof (commit_end_in_place l1 l2 o (percentage request) now Hkey) as Hc.
  unfold commit_end in Hc. cbn [snd] in Hc. rewrite Hc.
  assert (Hnot : ~ In o (l1 ++ l2)%list).
  { rewrite map_app in Hkey. simpl in Hkey.
    apply NoDup_remove_2 in Hkey. intros H. apply Hkey.
    rewrite <- map_app. now apply in_map. }
  intros s. split.
  - intros [Hs Hn]. apply in_app_or in Hs.
    destruct Hs as [Hs|[<-|Hs]]; [| discriminate |].
    + repeat split; [apply in_or_app; now left|exact Hn|].
      intros ->. apply Hnot, in_or_app. now left.
    + repeat split; [apply in_or_app; right; now right|exact Hn|].
      intros ->. apply Hnot, in_or_app. now right.
  - intros [Hs [Hn Hne]]. split; [|exact Hn].
    apply in_app_or in Hs. destruct Hs as [Hs|[Hs|Hs]].
    + apply in_or_app. now left.
    + congruence.
    + apply in_or_app. right. now right.
Qed.

Lemma end_closes_exactly_one_witness :
  let db := [mk_session 1 50 t_1 None None; mk_session 2 40 t_0 None None] in
  let db' := snd (create_session "" (mk_session_request 80 "end") t_1 None db) in
  map id db' = map id db
  /\ List.length db' = List.length db
  /\ forall s, (In s db' /\ end_percentage s = None)
               <-> (In s db /\ end_percentage s = None
                    /\ s <> mk_session 1 50 t_1 None None).
Proof.
  intros db.
  apply (end_closes_exactly_one "" (mk_session_request 80 "end") t_1 None db
           (mk_session 1 50 t_1 None None)).
  - repeat constructor; simpl; intuition discriminate.
  - reflexivity.
  - simpl; lia.
  - reflexivity.
  - reflexivity.
Defined.

(** ** Invariants of the table *)

(** What a request does to the table, with the percentage it wrote. *)
Lemma serve_cases (P : string) (c : call) (db : DB) :
  serve P c db = db
  \/ (exists p, (0 <= p <= 100)%Z
        /\ serve P c db = (db ++ [mk_session (next_id db) p (clock c) None None])%list)
  \/ (exists o p, (0 <= p <= 100)%Z /\ open_session db = Some o
        /\ serve P c db
           = map (fun r => if (id r =? id o)%Z then set_end p (clock c) r else r) db)
  \/ (exists k, serve P c db = filter (fun r => negb (id r =? k)%Z) db)
  \/ serve P c db = [].
Proof.
  unfold serve. destruct (target c) as [u| | |request| |k| |].
  4:{ rewrite create_session_table.
      destruct (verify_session P (cookie c)); [|now left].
      destruct ((percentage request <? 0) || (percentage request >? 100))%Z eqn:Hp;
        [now left|].
      apply percentage_in_range in Hp. cbn [negb andb].
      destruct (type request =? "start"); [right; left; eauto|].
      destruct (type request =? "end"); [|now left].
      destruct (open_session db) as [o|] eqn:E; [|now left].
      right; right; left. eauto. }
  all: unfold get_status, get_sessions, export_csv, delete_session,
         delete_all_sessions, health_check, bind, query;
       try (left; reflexivity);
       (destruct (verify_session P (cookie c)) eqn:V;
        [rewrite (require_auth_ok _ _ _ V)
        |rewrite (require_auth_denied _ _ _ V); left; reflexivity]).
  - destruct (open_session db); left; reflexivity.
  - left; reflexivity.
  - left; reflexivity.
  - unfold query_by_id.
    destruct (first (filter (fun r => (id r =? k)%Z) db)) as [s|];
      [|destruct (fits_int64 k); left; reflexivity].
    do 3 right. left. exists (id s). reflexivity.
  - do 4 right. reflexivity.
Qed.

(** X12. A closed session is final: under the primary-key constraint, a
    row whose [end_percentage] is set is, after any request, either gone or
    exactly as it was.  No request reopens a session or closes it again. *)
Theorem closed_rows_are_final (P : string) (c : call) (db : DB)
    (r r' : ChargingSession) :
  NoDup (map id db) ->
  In r db -> end_percentage r <> None ->
  In r' (serve P c db) -> id r' = id r ->
  r' = r.
Proof.
  intros Hkey Hr Hclosed Hr' Hid.
  destruct (serve_cases P c db) as [E|[[p [_ E]]|[[o [p [_ [Eo E]]]]|[[k E]|E]]]];
    rewrite E in Hr'.
  - now apply (keys_injective db).
  - apply in_app_or in Hr'. destruct Hr' as [Hr'|[<-|[]]].
    + now apply (keys_injective db).
    + exfalso. apply (next_id_fresh db). simpl in Hid. rewrite Hid.
      now apply in_map.
  - apply in_map_iff in Hr'. destruct Hr' as [x [Hx Hin]].
    destruct (open_session_Some db o Eo) as [Ho [Hopen _]].
    destruct (Z.eqb_spec (id x) (id o)) as [Exo|Exo].
    + exfalso. subst r'. simpl in Hid.
      assert (x = r) by now apply (keys_injective db).
      assert (x = o) by now apply (keys_injective db).
      congruence.
    + subst r'. now apply (keys_injective db).
  - apply filter_In in Hr'. destruct Hr' as [Hr' _].
    now apply (keys_injective db).
  - destruct Hr'.
Qed.

Lemma closed_rows_are_final_witness :
  let done := mk_session 1 50 t_0 (Some 80%Z) (Some t_1) in
  hd (mk_session 2 40 t_1 None None)
     (serve "" (mk_call (PostSessions (mk_session_request 10 "end")) None t_1)
        [done; mk_session 2 40 t_1 None None])
  = done.
Proof.
  intros done.
  apply (closed_rows_are_final ""
           (mk_call (PostSessions (mk_session_request 10 "end")) None t_1)
           [done; mk_session 2 40 t_1 None None] done).
  - repeat constructor; simpl; intuition discriminate.
  - now left.
  - discriminate.
  - now left.
  - reflexivity.
Defined.

(** X13. No request changes where a session started: under the
    primary-key constraint, a row of the table after a request whose key
    was in the table before has the [start_percentage] and [start_time] the
    row of that key had, and either it is that row or that row had a null
    [end_percentage] and it now has both end fields set, [end_time] to the
    time of the request. *)
Theorem start_fields_never_change (P : string) (c : call) (db : DB)
    (r' : ChargingSession) :
  NoDup (map id db) ->
  In r' (serve P c db) -> In (id r') (map id db) ->
  exists r, In r db /\ id r = id r'
    /\ start_percentage r' = start_percentage r
    /\ start_time r' = start_time r
    /\ (r' = r
        \/ (end_percentage r = None
            /\ exists p, end_percentage r' = Some p
                 /\ end_time r' = Some (clock c))).
Proof.
  intros Hkey Hr' Hid.
  assert (Hsame : In r' db -> exists r, In r db /\ id r = id r'
            /\ start_percentage r' = start_percentage r
            /\ start_time r' = start_time r
            /\ (r' = r
                \/ (end_percentage r = None
                    /\ exists p, end_percentage r' = Some p
                         /\ end_time r' = Some (clock c))))
    by (intros H; exists r'; auto 6).
  destruct (serve_cases P c db) as [E|[[p [_ E]]|[[o [p [_ [Eo E]]]]|[[k E]|E]]]];
    rewrite E in Hr'.
  - auto.
  - apply in_app_or in Hr'. destruct Hr' as [Hr'|[<-|[]]]; [auto|].
    exfalso. exact (next_id_fresh db Hid).
  - apply in_map_iff in Hr'. destruct Hr' as [x [Hx Hin]].
    destruct (open_session_Some db o Eo) as [Ho [Hopen Hmax]].
    destruct (Z.eqb_spec (id x) (id o)) as [Exo|Exo]; [|subst r'; auto].
    assert (x = o) by now apply (keys_injective db).
    exists x. subst r' x. simpl. repeat split; auto.
    right. split; [exact Hopen|eauto].
  - apply filter_In in Hr'. tauto.
  - destruct Hr'.
Qed.

Lemma start_fields_never_change_witness :
  let db := [mk_session 1 50 t_0 None None] in
  let closed := mk_session 1 50 t_0 (Some 80%Z) (Some t_1) in
  exists r, In r db /\ id r = id closed
    /\ start_percentage closed = start_percentage r
    /\ start_time closed = start_time r
    /\ (closed = r
        \/ (end_percentage r = None
            /\ exists p, end_percentage closed = Some p
                 /\ end_time closed = Some t_1)).
Proof.
  intros db closed.
  apply (start_fields_never_change ""
           (mk_call (PostSessions (mk_session_request 80 "end")) None t_1)
           db closed).
  - repeat constructor; simpl; intuition discriminate.
  - now left.
  - now left.
Defined.

Lemma next_id_positive (db : DB) : (1 <= next_id db)%Z.
Proof.
  assert (H : (0 <= max_id db)%Z)
    by (induction db as [|r db IH]; simpl; lia).
  destruct db; unfold next_id; [lia|]. lia.
Qed.

(** X14. Every percentage the service stores is between 0 and 100: in every
    table it can hold, each row has [start_percentage] in that range, and
    [end_percentage] in that range when it is set. *)
Theorem stored_percentages_in_range (P : string) (db : DB) (s : ChargingSession) :
  reachable P db -> In s db ->
  (0 <= start_percentage s <= 100)%Z
  /\ (forall p, end_percentage s = Some p -> (0 <= p <= 100)%Z).
Proof.
  intros Hr. revert s.
  induction Hr as [|c db _ IH] using reachable_ind; intros s Hs; [destruct Hs|].
  destruct (serve_cases P c db) as [E|[[p [Hp E]]|[[o [p [Hp [_ E]]]]|[[k E]|E]]]];
    rewrite E in Hs.
  - now apply IH.
  - apply in_app_or in Hs. destruct Hs as [Hs|[<-|[]]]; [now apply IH|].
    simpl. split; [exact Hp|discriminate].
  - apply in_map_iff in Hs. destruct Hs as [x [Hx Hin]].
    destruct (id x =? id o)%Z; subst s; [|now apply IH].
    simpl. split; [now apply IH|]. intros q [= <-]. exact Hp.
  - apply filter_In in Hs. now apply IH.
  - destruct Hs.
Qed.

Lemma stored_percentages_in_range_witness :
  let s := mk_session 1 50 t_0 (Some 0%Z) (Some t_1) in
  (0 <= start_percentage s <= 100)%Z
  /\ (forall p, end_percentage s = Some p -> (0 <= p <= 100)%Z).
Proof.
  intros s.
  apply (stored_percentages_in_range "" [s] s).
  - exists [mk_call (PostSessions (mk_session_request 50 "start")) None t_0;
            mk_call (PostSessions (mk_session_request 0 "end")) None t_1].
    reflexivity.
  - now left.
Defined.

(** X15. In every table the service can hold the keys are pairwise
    distinct and at least 1, and the key the next [start] will use is
    larger than all of them. *)
Theorem stored_keys_distinct_and_positive (P : string) (db : DB) :
  reachable P db ->
  NoDup (map id db)
  /\ forall s, In s db -> (1 <= id s < next_id db)%Z.
Proof.
  intros Hr. split; [now apply (reachable_keys_unique P)|].
  intros s Hs. split; [|now apply keys_below_next_id, in_map].
  revert s Hs. induction Hr as [|c db _ IH] using reachable_ind;
    intros s Hs; [destruct Hs|].
  destruct (serve_rows P c db s Hs) as [H|[->|[r [p [Hin ->]]]]].
  - now apply IH.
  - simpl. apply next_id_positive.
  - simpl. now apply IH.
Qed.

Lemma stored_keys_distinct_and_positive_witness :
  let db := [mk_session 1 50 t_0 (Some 0%Z) (Some t_1);
             mk_session 2 60 t_1 None None] in
  NoDup (map id db)
  /\ forall s, In s db -> (1 <= id s < next_id db)%Z.
Proof.
  intros db.
  apply (stored_keys_distinct_and_positive "" db).
  exists [mk_call (PostSessions (mk_session_request 50 "start")) None t_0;
          mk_call (PostSessions (mk_session_request 0 "end")) None t_1;
          mk_call (PostSessions (mk_session_request 60 "start")) None t_1].
  reflexivity.
Defined.

(** ** The CSV export, line by line *)

Lemma csv_field_empty : csv_field (CStr "") = "".
Proof. reflexivity. Qed.

Lemma writerow_text (s : ChargingSession) :
  end_percentage s <> Some 0%Z ->
  writerow (csv_row s)
  = str_int (start_percentage s) ++ "," ++ isoformat (start_time s) ++ ","
    ++ match end_percentage s with Some p => str_int p | None => "" end ++ ","
    ++ match end_time s with Some t => isoformat t | None => "" end
    ++ lineterminator.
Proof.
  intros Hnz. unfold writerow, csv_row.
  destruct (end_percentage s) as [p|], (end_time s) as [t|];
    cbn [opt_int_truthy opt_datetime_truthy map join];
    try (assert (E : (p =? 0)%Z = false) by (apply Z.eqb_neq; congruence);
         rewrite E; cbn [negb]);
    rewrite ?csv_field_int, ?csv_field_isoformat, ?csv_field_empty;
    now rewrite !append_assoc.
Qed.

(** X16. When no session was closed at 0, the export past the gate is the
    header line followed by one line per stored session in ascending order
    of [start_time]; a line is the start percentage, the ISO start time,
    the end percentage and the ISO end time, the last two empty when null,
    separated by commas and ended by CR LF.  The table is not changed. *)
Theorem export_csv_without_zero_end (P : string) (token : option string) (db : DB) :
  verify_session P token = true ->
  (forall s, In s db -> end_percentage s <> Some 0%Z) ->
  exists sessions : list ChargingSession,
    export_csv P token db
    = (Returned
         (mk_response
            ("start_percentage,start_datetime,end_percentage,end_datetime"
             ++ lineterminator
             ++ lines
                  (map (fun s =>
                          str_int (start_percentage s) ++ ","
                          ++ isoformat (start_time s) ++ ","
                          ++ match end_percentage s with
                             | Some p => str_int p
                             | None => ""
                             end ++ ","
                          ++ match end_time s with
                             | Some t => isoformat t
                             | None => ""
                             end
                          ++ lineterminator)
                       sessions))
            "text/csv"
            [("Content-Disposition", "attachment; filename=charging_sessions.csv")]),
       db)
    /\ Permutation db sessions
    /\ StronglySorted
         (fun a b => dt_leb (start_time a) (start_time b) = true) sessions.
Proof.
  intros V Hnz.
  destruct (export_csv_lines P token db V) as [sessions [E [Hperm Hsorted]]].
  exists sessions. repeat split; [|exact Hperm|exact Hsorted].
  rewrite E. do 5 f_equal. unfold lines. f_equal.
  apply map_ext_in. intros s Hs. apply writerow_text, Hnz.
  eapply Permutation_in; [apply Permutation_sym, Hperm|exact Hs].
Qed.

Lemma export_csv_without_zero_end_witness :
  exists sessions : list ChargingSession,
    export_csv "" None [mk_session 1 50 t_0 (Some 80%Z) (Some t_1)]
    = (Returned
         (mk_response
            ("start_percentage,start_datetime,end_percentage,end_datetime"
             ++ lineterminator
             ++ lines
                  (map (fun s =>
                          str_int (start_percentage s) ++ ","
                          ++ isoformat (start_time s) ++ ","
                          ++ match end_percentage s with
                             | Some p => str_int p
                             | None => ""
                             end ++ ","
                          ++ match end_time s with
                             | Some t => isoformat t
                             | None => ""
                             end
                          ++ lineterminator)
                       sessions))
            "text/csv"
            [("Content-Disposition", "attachment; filename=charging_sessions.csv")]),
       [mk_session 1 50 t_0 (Some 80%Z) (Some t_1)])
    /\ Permutation [mk_session 1 50 t_0 (Some 80%Z) (Some t_1)] sessions
    /\ StronglySorted
         (fun a b => dt_leb (start_time a) (start_time b) = true) sessions.
Proof.
  apply (export_csv_without_zero_end "" None
           [mk_session 1 50 t_0 (Some 80%Z) (Some t_1)]).
  - reflexivity.
  - intros s [<-|[]]. discriminate.
Defined.

Lemma commas_app (a b : string) : commas (a ++ b) = (commas a + commas b)%nat.
Proof.
  induction a as [|x a IH]; simpl; [reflexivity|].
  destruct (Ascii.eqb x ","%char); simpl; now rewrite IH.
Qed.

Lemma commas_unquoted (s : string) : needs_quotes s = false -> commas s = 0%nat.
Proof.
  induction s as [|x s IH]; simpl; [reflexivity|].
  destruct (Ascii.eqb x ","%char); simpl; [discriminate|].
  intros H. apply IH.
  destruct (needs_quotes s); [|reflexivity].
  now rewrite !orb_true_r in H.
Qed.

(** X17. Every data line of the export has exactly three commas, for any
    stored row whatever its numbers and times: no cell is ever quoted and
    none contains a comma, so a line always splits into four fields. *)
Theorem csv_line_has_four_fields (s : ChargingSession) :
  commas (writerow (csv_row s)) = 3%nat
  /\ Forall (fun c => csv_field c = cell_text c /\ commas (cell_text c) = 0%nat)
       (csv_row s).
Proof.
  assert (Hcells : Forall (fun c => needs_quotes (cell_text c) = false) (csv_row s)).
  { unfold csv_row.
    destruct (end_percentage s) as [p|], (end_time s) as [t|];
      cbn [opt_int_truthy opt_datetime_truthy];
      try destruct (negb (p =? 0)%Z);
      repeat constructor; cbn [cell_text];
      auto using needs_quotes_str_int, needs_quotes_isoformat. }
  assert (Hplain : Forall (fun c => csv_field c = cell_text c
                                    /\ commas (cell_text c) = 0%nat) (csv_row s)).
  { eapply Forall_impl; [|exact Hcells]. intros c Hc. split.
    - unfold csv_field. cbv zeta. now rewrite Hc.
    - now apply commas_unquoted. }
  split; [|exact Hplain].
  unfold writerow. rewrite commas_app.
  remember (csv_row s) as row eqn:Hrow.
  assert (Hlen : List.length row = 4%nat).
  { subst row. unfold csv_row. reflexivity. }
  destruct row as [|c1 [|c2 [|c3 [|c4 [|c5 row]]]]]; try discriminate.
  inversion Hplain as [|? ? [E1 C1] H1]; subst.
  inversion H1 as [|? ? [E2 C2] H2]; subst.
  inversion H2 as [|? ? [E3 C3] H3]; subst.
  inversion H3 as [|? ? [E4 C4] H4]; subst.
  cbn [map join]. rewrite E1, E2, E3, E4.
  rewrite !commas_app, C1, C2, C3, C4. reflexivity.
Qed.

(** ** [unlock] against [verify_session] *)


(** ** [main.py]: the allowed origins *)

Lemma split_on_not_nil (sep : ascii) (s : string) : split_on sep s <> [].
Proof.
  destruct s as [|c s]; simpl; [discriminate|].
  destruct (Ascii.eqb c sep); [discriminate|].
  destruct (split_on sep s); discriminate.
Qed.

Lemma join_cons_char (sep : string) (c : ascii) (w : string) (ws : list string) :
  join sep (String c w :: ws) = String c (join sep (w :: ws)).
Proof. destruct ws; reflexivity. Qed.

Lemma join_split_on (s : string) : join "," (split_on ","%char s) = s.
Proof.
  induction s as [|c s IH]; [reflexivity|]. simpl split_on.
  destruct (Ascii.eqb_spec c ","%char) as [->|Hc].
  - pose proof (split_on_not_nil ","%char s) as Hn.
    destruct (split_on ","%char s) as [|w ws]; [congruence|].
    change (join "," ("" :: w :: ws)) with (String ","%char (join "," (w :: ws))).
    now rewrite IH.
  - pose proof (split_on_not_nil ","%char s) as Hn.
    destruct (split_on ","%char s) as [|w ws]; [congruence|].
    now rewrite join_cons_char, IH.
Qed.

Lemma split_on_commas (s : string) :
  Forall (fun w => commas w = 0%nat) (split_on ","%char s)
  /\ List.length (split_on ","%char s) = S (commas s).
Proof.
  induction s as [|c s [IHf IHl]]; [split; [repeat constructor|reflexivity]|].
  simpl. destruct (Ascii.eqb c ","%char) eqn:Ec.
  - split; [constructor; [reflexivity|exact IHf]|simpl; now rewrite IHl].
  - destruct (split_on ","%char s) as [|w ws]; [discriminate IHl|].
    inversion IHf as [|? ? Hw Hws]; subst.
    split; [|exact IHl].
    constructor; [|exact Hws]. simpl. now rewrite Ec.
Qed.

(** X19. The allowed origins are the pieces of [ALLOWED_ORIGINS] between
    its commas, kept as written: joining them with commas gives the value
    back, there is one more piece than there are commas (so the list is
    never empty, and an empty value gives one empty origin), and no piece
    contains a comma.  With the variable unset the list is
    [http://localhost:8080] alone. *)
Theorem allowed_origins_are_the_comma_pieces (env : option string) :
  let v := match env with Some v => v | None => "http://localhost:8080" end in
  join "," (allowed_origins env) = v
  /\ List.length (allowed_origins env) = S (commas v)
  /\ Forall (fun o => commas o = 0%nat) (allowed_origins env)
  /\ allowed_origins None = ["http://localhost:8080"]
  /\ allowed_origins (Some "") = [""].
Proof.
  intros v. unfold allowed_origins. fold v.
  split; [apply join_split_on|].
  split; [apply split_on_commas|].
  split; [apply split_on_commas|].
  split; reflexivity.
Qed.

Local Close Scope string_scope.
